(** * Pycco: section splitting, comment preprocessing and translation merge

    A shallow embedding of [pycco/main.py]: [parse] (with [get_language]),
    [preprocess], [highlight], [merge_docs], [destination], the escaping of
    braces in [generate_html] and [shift], followed by the properties of
    these functions.

    Python text is modelled as [string]; a character is a code point below
    256.  Python exceptions are modelled by the [Raise] constructor of
    [result]. *)

From Stdlib Require Import String Ascii List Bool Arith ZArith Lia.
Import ListNotations.
Open Scope string_scope.
Open Scope bool_scope.

(** ** Python string built-ins *)

Module PyStr.

Definition nl_char : ascii := "010"%char.
Definition nl : string := String nl_char "".

Definition nonempty (s : string) : bool :=
  match s with "" => false | String _ _ => true end.

(** [unicode.isspace], on the code points below 256. *)
Definition isspace (c : ascii) : bool :=
  let n := nat_of_ascii c in
  (Nat.leb 9 n && Nat.leb n 13) || (Nat.leb 28 n && Nat.leb n 32)
  || Nat.eqb n 133 || Nat.eqb n 160.

(** [s.lstrip()] *)
Fixpoint lstrip (s : string) : string :=
  match s with
  | "" => ""
  | String c t => if isspace c then lstrip t else s
  end.

(** [s.rstrip()] *)
Fixpoint rstrip (s : string) : string :=
  match s with
  | "" => ""
  | String c t =>
      match rstrip t with
      | "" => if isspace c then "" else String c ""
      | r => String c r
      end
  end.

(** [s.strip()] *)
Definition strip (s : string) : string := lstrip (rstrip s).

(** [s.startswith(p)] *)
Definition startswith (p s : string) : bool := prefix p s.

(** [s.endswith(p)]: [p] is one of the suffixes of [s]. *)
Fixpoint endswith (p s : string) : bool :=
  (s =? p) ||
  match s with
  | "" => false
  | String _ t => endswith p t
  end.

(** [sub in s] *)
Fixpoint contains (sub s : string) : bool :=
  prefix sub s ||
  match s with
  | "" => false
  | String _ t => contains sub t
  end.

(** [c in s] for a single character. *)
Fixpoint has_char (c : ascii) (s : string) : bool :=
  match s with
  | "" => false
  | String d t => Ascii.eqb d c || has_char c t
  end.

(** [s.split(sep)] for a separator of one character; the result always
    has at least one piece. *)
Fixpoint split_chr (sep : ascii) (s : string) : list string :=
  match s with
  | "" => [""]
  | String c t =>
      if Ascii.eqb c sep then "" :: split_chr sep t
      else match split_chr sep t with
           | h :: r => String c h :: r
           | [] => [String c ""]
           end
  end.

(** [s.replace(old, '')] for a non-empty [old]: scanning left to right, an
    occurrence of [old] is dropped and the scan resumes behind it.  [skip]
    counts the characters of the current occurrence still to drop. *)
Fixpoint remove_from (skip : nat) (old s : string) : string :=
  match s with
  | "" => ""
  | String c t =>
      match skip with
      | S k => remove_from k old t
      | 0 => if prefix old s then remove_from (String.length old - 1) old t
             else String c (remove_from 0 old t)
      end
  end.

(** [s.replace(old, '')]; with an empty [old] Python inserts the
    replacement around every character, which leaves [s] as it is. *)
Definition remove_all (old s : string) : string :=
  if nonempty old then remove_from 0 old s else s.

(** [unicode.lower], on the code points below 256. *)
Definition lower_char (c : ascii) : ascii :=
  let n := nat_of_ascii c in
  if (Nat.leb 65 n && Nat.leb n 90) || (Nat.leb 192 n && Nat.leb n 214)
     || (Nat.leb 216 n && Nat.leb n 222)
  then ascii_of_nat (n + 32) else c.

Fixpoint lower (s : string) : string :=
  match s with
  | "" => ""
  | String c t => String (lower_char c) (lower t)
  end.

(** [sep.join(l)] *)
Definition join (sep : string) (l : list string) : string := String.concat sep l.

(** [posixpath.basename]: what follows the last slash. *)
Definition basename (p : string) : string := last (split_chr "/" p) "".

(** [s * n] *)
Fixpoint repeat_str (s : string) (n : nat) : string :=
  match n with
  | 0 => ""
  | S k => s ++ repeat_str s k
  end.

(** [s.rstrip(c)] for one character [c]. *)
Fixpoint rstrip_chr (c : ascii) (s : string) : string :=
  match s with
  | "" => ""
  | String d t =>
      match rstrip_chr c t with
      | "" => if Ascii.eqb d c then "" else String d ""
      | r => String d r
      end
  end.

(** [s.replace(old, new)] for a non-empty [old], which is also [re.sub] of
    a pattern and a replacement without special characters: scanning left
    to right, an occurrence of [old] gives [new] and the scan resumes behind
    it.  [skip] counts the characters of the occurrence still to pass. *)
Fixpoint replace_from (skip : nat) (old new s : string) : string :=
  match s with
  | "" => ""
  | String c t =>
      match skip with
      | S k => replace_from k old new t
      | 0 => if prefix old s
             then new ++ replace_from (String.length old - 1) old new t
             else String c (replace_from 0 old new t)
      end
  end.

(** [l[k:]] for an integer [k]: a negative [k] counts from the end. *)
Definition slice_from {A : Type} (k : Z) (l : list A) : list A :=
  if (0 <=? k)%Z then skipn (Z.to_nat k) l
  else skipn (List.length l - Z.to_nat (- k)) l.

(** [(p[:i], p[i:])] for [i = p.rfind('/') + 1]. *)
Fixpoint rfind_split (p : string) : string * string :=
  match p with
  | "" => ("", "")
  | String c t =>
      let (h, tl) := rfind_split t in
      if nonempty h then (String c h, tl)
      else if Ascii.eqb c "/" then ("/", tl)
      else ("", String c tl)
  end.

Fixpoint all_slashes (s : string) : bool :=
  match s with
  | "" => true
  | String c t => Ascii.eqb c "/" && all_slashes t
  end.

(** [posixpath.split]: the head loses its final slashes unless it is made
    of slashes only. *)
Definition path_split (p : string) : string * string :=
  let (h, tl) := rfind_split p in
  (if nonempty h && negb (all_slashes h) then rstrip_chr "/" h else h, tl).

(** [posixpath.join] of two components. *)
Definition path_join (a b : string) : string :=
  if startswith "/" b then b
  else if negb (nonempty a) || endswith "/" a then a ++ b
  else a ++ "/" ++ b.

End PyStr.

(** ** The program *)

Module Pycco.
Import PyStr.

Inductive exn : Type :=
| IndexError (msg : string)
| ValueError (msg : string)
| LocaleError (identifier : string).

Inductive result (A : Type) : Type :=
| Ok (a : A)
| Raise (e : exn).
Arguments Ok {A} a.
Arguments Raise {A} e.

Definition bind {A B : Type} (m : result A) (f : A -> result B) : result B :=
  match m with
  | Ok a => f a
  | Raise e => Raise e
  end.

Notation "x <- m ;; k" := (bind m (fun x => k))
  (at level 61, m at next level, right associativity).

(** A renderer as [parse] reads it: the keys ["multistart"], ["multiend"]
    and ["strip_multi_delimiters"], each possibly absent ([dict.get]). *)
Record renderer : Type := {
  multistart : option string;
  multiend : option string;
  strip_multi_delimiters : bool
}.

(** An entry of [renderers] after [renderer.update(renderer_flavors[...])],
    as far as [prepare_renderer] reads the delimiters from it. *)
Record renderer_entry : Type := {
  entry_multistart : string;
  entry_multiend : string
}.

(** The delimiters of [renderer_flavors['markdown']], the flavor of every
    registered renderer. *)
Definition markdown_entry : renderer_entry :=
  {| entry_multistart := "```"; entry_multiend := "```" |}.

(** [prepare_renderer] returns a dictionary with the keys ["func"],
    ["multistart"] and ["multiend"] and no other, so that
    [renderer.get("strip_multi_delimiters")] is [None] on it. *)
Definition prepare_renderer (e : renderer_entry) : renderer :=
  {| multistart := Some (entry_multistart e);
     multiend := Some (entry_multiend e);
     strip_multi_delimiters := false |}.

Definition default_renderer : renderer := prepare_renderer markdown_entry.

(** A section dictionary: ["text"] is set by [parse], ["html"] and ["num"]
    by [highlight]. *)
Record section : Type := {
  text : string;
  html : option string;
  num : option nat
}.

Record document : Type := {
  title : string;
  sections : list section;
  language : string
}.

(** *** parse *)

(** The dictionary [{"text": chunk}]. *)
Definition new_section (chunk : string) : section :=
  {| text := chunk; html := None; num := None |}.

(** The inner function [save] of [parse]. *)
Definition save (secs : list section) (chunk : string) : list section :=
  if nonempty chunk then secs ++ [new_section chunk] else secs.

(** The loop state of [parse]: [chunk], [multi_line] and the list
    [sections], here [emitted]. *)
Record pstate : Type := {
  chunk : string;
  multi_line : bool;
  emitted : list section
}.

Definition init_state : pstate :=
  {| chunk := ""; multi_line := false; emitted := [] |}.

(** [all(multi_line_delimiters)]: both delimiters present and non-empty. *)
Definition block_delimiters (r : renderer) : option (string * string) :=
  match multistart r, multiend r with
  | Some ms, Some me =>
      if nonempty ms && nonempty me then Some (ms, me) else None
  | _, _ => None
  end.

(** [line.lstrip().startswith(delim) or line.rstrip().endswith(delim)] *)
Definition touches (delim line : string) : bool :=
  startswith delim (lstrip line) || endswith delim (rstrip line).

(** The condition of the first branch of the loop. *)
Definition is_delimiter_line (r : renderer) (line : string) : bool :=
  match block_delimiters r with
  | Some (ms, me) => touches ms line || touches me line
  | None => false
  end.

(** The line as it enters the buffer on a delimiter line. *)
Definition strip_delimiters (r : renderer) (ms me line : string) : string :=
  if strip_multi_delimiters r then remove_all me (remove_all ms line)
  else line.

(** The first branch of the loop, for delimiters [ms] and [me]. *)
Definition delimiter_step (r : renderer) (ms me : string) (st : pstate)
    (line : string) : pstate :=
  let ml1 := negb (multi_line st) in
  let ml2 :=
    if ml1 && endswith me (strip line)
       && Nat.ltb (String.length me) (String.length (strip line))
    then false else ml1 in
  let line' := strip_delimiters r ms me line in
  let chunk1 := if negb ml2 then chunk st ++ nl ++ line' else chunk st in
  let secs := if nonempty chunk1 then save (emitted st) chunk1
              else emitted st in
  let chunk2 := if nonempty chunk1 then "" else chunk1 in
  let chunk3 := if ml2 then chunk2 ++ line' else chunk2 in
  {| chunk := chunk3; multi_line := ml2; emitted := secs |}.

(** The remaining branches of the loop. *)
Definition plain_step (st : pstate) (line : string) : pstate :=
  if multi_line st then
    {| chunk := chunk st ++ nl ++ line; multi_line := multi_line st;
       emitted := emitted st |}
  else if nonempty line then
    {| chunk := chunk st ++ nl ++ line; multi_line := multi_line st;
       emitted := emitted st |}
  else
    {| chunk := ""; multi_line := multi_line st;
       emitted := save (emitted st) (chunk st) |}.

(** One iteration of [for line in lines]. *)
Definition parse_line (r : renderer) (st : pstate) (line : string) : pstate :=
  match block_delimiters r with
  | Some (ms, me) =>
      if touches ms line || touches me line
      then delimiter_step r ms me st line
      else plain_step st line
  | None => plain_step st line
  end.

Definition parse_lines (r : renderer) (st : pstate) (lines : list string)
    : pstate :=
  fold_left (parse_line r) lines st.

(** [lines] after the optional [lines.pop(0)] of the interpreter line;
    [text.split] never returns an empty list, so [lines[0]] exists. *)
Definition drop_shebang (lines : list string) : list string :=
  match lines with
  | first :: rest => if startswith "#!" first then rest else lines
  | [] => []
  end.

(** The body of [parse] after the language lookup: the title and the
    sections.  [lines.pop(0)] raises [IndexError] on an empty list. *)
Definition split_text (r : renderer) (txt : string)
    : result (string * list section) :=
  match drop_shebang (split_chr nl_char txt) with
  | [] => Raise (IndexError "pop from empty list")
  | ttl :: body =>
      let st := parse_lines r init_state body in
      Ok (ttl, save (emitted st) (chunk st))
  end.

(** *** get_language *)

(** Group 1 of [re.match] with the pattern of [get_language]: a greedy
    group of any characters, then a group made of a dot and one or more
    characters.  The dot of a pattern does not match a newline, so the
    match stays within the first line of [s]; the first group is greedy, so
    it ends at the last ['.'] that still has a character of that line
    behind it.  [None] when there is no match. *)
Fixpoint match_stem (s : string) : option string :=
  match s with
  | "" => None
  | String c t =>
      if Ascii.eqb c nl_char then None
      else
        match match_stem t with
        | Some g => Some (String c g)
        | None =>
            match t with
            | String d _ =>
                if Ascii.eqb c "." && negb (Ascii.eqb d nl_char)
                then Some "" else None
            | "" => None
            end
        end
  end.

Section Language.

(** [Locale.parse] of the babel library, applied to a string: it raises for
    an identifier it cannot resolve; [Ok (Some l)] stands for a locale whose
    [language] attribute is [l], [Ok None] for a result that is false. *)
Variable Locale_parse : string -> result (option string).

Definition get_language (source code : string) (forced : option string)
    : result string :=
  match forced with
  | Some l =>
      locale <- Locale_parse l ;;
      match locale with
      | Some lang => Ok lang
      | None => Raise (ValueError ("Unknown forced language: " ++ l))
      end
  | None =>
      match match_stem (basename source) with
      | Some stem =>
          locale <- Locale_parse stem ;;
          match locale with
          | Some lang => Ok lang
          | None => Raise (ValueError "Can't figure out the language!")
          end
      | None => Raise (ValueError "Can't figure out the language!")
      end
  end.

Definition parse (source txt : string) (forced : option string)
    (r : renderer) : result document :=
  lang <- get_language source txt forced ;;
  body <- split_text r txt ;;
  Ok {| title := fst body; sections := snd body; language := lang |}.

End Language.

(** *** merge_docs *)

Record merged_section : Type := {
  m_num : nat;
  source_html : string;
  translation_html : string
}.

Record merged_document : Type := {
  source_title : string;
  translation_title : string;
  source_language : string;
  translation_language : string;
  merged_sections : list merged_section
}.

(** [lambda section: (section or {}).get('html', '')] *)
Definition get_html (s : option section) : string :=
  match s with
  | Some sec => match html sec with Some h => h | None => "" end
  | None => ""
  end.

(** [itertools.izip_longest] of two lists, padding with [None]. *)
Fixpoint izip_longest {A B : Type} (l1 : list A) (l2 : list B)
    : list (option A * option B) :=
  match l1 with
  | [] => map (fun b => (None, Some b)) l2
  | a :: t1 =>
      match l2 with
      | [] => (Some a, None) :: izip_longest t1 []
      | b :: t2 => (Some a, Some b) :: izip_longest t1 t2
      end
  end.

(** [enumerate], counting from [i]. *)
Fixpoint enumerate_from {A : Type} (i : nat) (l : list A) : list (nat * A) :=
  match l with
  | [] => []
  | x :: t => (i, x) :: enumerate_from (S i) t
  end.

Definition merge_docs (source_doc translation_doc : document)
    : merged_document :=
  {| source_title := title source_doc;
     translation_title := title translation_doc;
     source_language := language source_doc;
     translation_language := language translation_doc;
     merged_sections :=
       map (fun p =>
              {| m_num := fst p;
                 source_html := get_html (fst (snd p));
                 translation_html := get_html (snd (snd p)) |})
           (enumerate_from 0
              (izip_longest (sections source_doc)
                            (sections translation_doc))) |}.

(** *** preprocess *)

Definition dq : string := String "034"%char "".

(** [name.lower().strip().split(" ")], joined by ["-"]. *)
Definition sanitize_section_name (name : string) : string :=
  join "-" (split_chr " " (strip (lower name))).

(** [re.sub('=', '#', s)] *)
Fixpoint eq_to_hash (s : string) : string :=
  match s with
  | "" => ""
  | String c t => String (if Ascii.eqb c "=" then "#"%char else c) (eq_to_hash t)
  end.

Definition replace_section_name (g1 g2 : string) : string :=
  eq_to_hash g1 ++ " <span id=" ++ dq ++ sanitize_section_name g2 ++ dq
  ++ " href=" ++ dq ++ sanitize_section_name g2 ++ dq ++ ">" ++ g2
  ++ "</span>".

(** The longest prefix of [s] whose characters satisfy [p], and the rest:
    a greedy repetition of a character class. *)
Fixpoint span (p : ascii -> bool) (s : string) : string * string :=
  match s with
  | "" => ("", "")
  | String c t =>
      if p c then let (a, b) := span p t in (String c a, b) else ("", s)
  end.

Definition is_eq (c : ascii) : bool := Ascii.eqb c "=".

(** [\s] of a pattern compiled without [re.UNICODE]. *)
Definition re_space (c : ascii) : bool :=
  let n := nat_of_ascii c in
  (Nat.leb 9 n && Nat.leb n 13) || Nat.eqb n 32.

(** A match of ['^([=]+)([^=]+)[=]*\s*$'] at the start of [s]: groups 1 and
    2.  Each repetition takes all it can; giving back characters never
    helps, as what follows a maximal run of a class is not in the class.
    [\s*] takes a final newline, so [$] succeeds at the end of [s] only,
    and a match is always the whole of [s]. *)
Definition match_section_name (s : string) : option (string * string) :=
  let (g1, r1) := span is_eq s in
  let (g2, r2) := span (fun c => negb (is_eq c)) r1 in
  let (_, r3) := span is_eq r2 in
  let (_, r4) := span re_space r3 in
  if nonempty g1 && nonempty g2 && negb (nonempty r4)
  then Some (g1, g2) else None.

(** [re.sub('^([=]+)([^=]+)[=]*\s*$', replace_section_name, comment)]: no
    [re.MULTILINE], so [^] holds at the first position only. *)
Definition sub_section_name (comment : string) : string :=
  match match_section_name comment with
  | Some (g1, g2) => replace_section_name g1 g2
  | None => comment
  end.

(** The rest of the group of [(.+?)\]\]] once its first character is taken:
    the shortest run without a newline that is followed by ["]]"]. *)
Fixpoint lazy_rest (s : string) : option string :=
  if prefix "]]" s then Some ""
  else
    match s with
    | "" => None
    | String c t =>
        if Ascii.eqb c nl_char then None
        else option_map (String c) (lazy_rest t)
    end.

(** A match of ['[^`]\[\[(.+?)\]\]'] at the start of [s]: group 1. *)
Definition match_crossref (s : string) : option string :=
  match s with
  | String c (String b1 (String b2 (String g0 t))) =>
      if negb (Ascii.eqb c "`") && Ascii.eqb b1 "[" && Ascii.eqb b2 "["
         && negb (Ascii.eqb g0 nl_char)
      then option_map (String g0) (lazy_rest t)
      else None
  | _ => None
  end.

Section Preprocess.

Variable destination : string -> string.

(** [name, anchor = match.group(1).split('#')] raises [ValueError] unless
    the split has two pieces. *)
Definition replace_crossref (g : string) : result string :=
  if has_char "#" g then
    match split_chr "#" g with
    | [name; anchor] =>
        Ok (" [" ++ name ++ "](" ++ basename (destination name) ++ "#"
            ++ anchor ++ ")")
    | _ => Raise (ValueError "too many values to unpack")
    end
  else Ok (" [" ++ g ++ "](" ++ basename (destination g) ++ ")").

(** [re.sub('[^`]\[\[(.+?)\]\]', replace_crossref, s)]: the leftmost match
    is replaced and the scan resumes behind it.  [skip] counts the
    characters of the current match still to pass. *)
Fixpoint sub_crossref_from (skip : nat) (s : string) : result string :=
  match s with
  | "" => Ok ""
  | String c t =>
      match skip with
      | S k => sub_crossref_from k t
      | 0 =>
          match match_crossref s with
          | Some g =>
              link <- replace_crossref g ;;
              out <- sub_crossref_from (String.length g + 4) t ;;
              Ok (link ++ out)
          | None =>
              out <- sub_crossref_from 0 t ;;
              Ok (String c out)
          end
      end
  end.

Definition sub_crossref (s : string) : result string :=
  sub_crossref_from 0 s.

Definition preprocess (comment : string) (section_nr : nat)
    : result string :=
  sub_crossref (sub_section_name comment).

End Preprocess.

(** *** highlight *)

Section Highlight.

(** [renderer['func']], the external prose renderer. *)
Variable render_func : string -> string.
Variable destination : string -> string.

(** The loop of [highlight] from index [i] on.  The text is unicode, so
    [unicode(section["text"])] returns it and the handler of
    [UnicodeError] is not entered. *)
Fixpoint highlight_from (i : nat) (secs : list section)
    : result (list section) :=
  match secs with
  | [] => Ok []
  | s :: rest =>
      preprocessed <- preprocess destination (text s) i ;;
      rest' <- highlight_from (S i) rest ;;
      Ok ({| text := text s; html := Some (render_func preprocessed);
             num := Some i |} :: rest')
  end.

(** [highlight] sets ["html"] and ["num"] in the sections of [doc]; here
    it returns the document with these sections. *)
Definition highlight (doc : document) : result document :=
  secs <- highlight_from 0 (sections doc) ;;
  Ok {| title := title doc; sections := secs; language := language doc |}.

End Highlight.

(** *** generate_html: the braces of the template language *)

Definition stache_marker : string := "__DOUBLE_OPEN_STACHE__".

(** [re.sub(r"\{\{", r"__DOUBLE_OPEN_STACHE__", html)] *)
Definition escape_stache (h : string) : string :=
  replace_from 0 "{{" stache_marker h.

(** The loop of [generate_html] over [doc['sections']] and the keys
    ['source_html'] and ['translation_html']. *)
Definition escape_sections (secs : list merged_section)
    : list merged_section :=
  map (fun m => {| m_num := m_num m;
                   source_html := escape_stache (source_html m);
                   translation_html := escape_stache (translation_html m) |})
      secs.

(** [re.sub(r"__DOUBLE_OPEN_STACHE__", "{{", rendered)], applied to what
    the template returns. *)
Definition unescape_stache (rendered : string) : string :=
  replace_from 0 stache_marker "{{" rendered.

(** *** destination *)

(** [re.sub(r"\.[^.]*$", override_ext, filename)]: the pattern matches from
    the last ['.'] of [filename] to its end, and nowhere when there is no
    ['.'].  The replacement is put in as it is, as [re.sub] does with a
    replacement without a backslash. *)
Fixpoint before_last_dot (s : string) : option string :=
  match s with
  | "" => None
  | String c t =>
      match before_last_dot t with
      | Some b => Some (String c b)
      | None => if Ascii.eqb c "." then Some "" else None
      end
  end.

Definition sub_ext (override_ext filename : string) : string :=
  match before_last_dot filename with
  | Some b => b ++ override_ext
  | None => filename
  end.

(** The value of [destination] once [outdir] is known to be there. *)
Definition destination_path (filepath : string) (preserve_paths : bool)
    (strip_paths : Z) (outdir : string) (override_ext : option string)
    : string :=
  let (dirname, filename) := path_split filepath in
  let name :=
    match override_ext with
    | Some ext => if nonempty ext then sub_ext ext filename else filename
    | None => filename
    end in
  let name :=
    if preserve_paths
    then path_join
           (join "/" (slice_from strip_paths (split_chr "/" dirname))) name
    else name in
  path_join outdir name.

(** The result of a function that raises [TypeError]. *)
Inductive checked (A : Type) : Type :=
| Returned (a : A)
| RaisedTypeError (msg : string).
Arguments Returned {A} a.
Arguments RaisedTypeError {A} msg.

Definition destination (filepath : string) (preserve_paths : bool)
    (strip_paths : Z) (outdir : option string) (override_ext : option string)
    : checked string :=
  match outdir with
  | Some out =>
      if nonempty out
      then Returned (destination_path filepath preserve_paths strip_paths
                       out override_ext)
      else RaisedTypeError "Missing the required 'outdir' keyword argument."
  | None => RaisedTypeError "Missing the required 'outdir' keyword argument."
  end.

(** The function [get_destination] of [process], called with a source only
    as [preprocess] does; [process] has checked [outdir] before. *)
Definition get_destination (preserve_paths : bool) (strip_paths : Z)
    (outdir : string) (source : string) : string :=
  destination_path source preserve_paths strip_paths outdir (Some ".html").

(** *** shift *)

(** [shift(list, default)]: the item returned and the list as it is left. *)
Definition shift {A : Type} (l : list A) (default : A) : A * list A :=
  match l with
  | x :: rest => (x, rest)
  | [] => (default, [])
  end.

End Pycco.

(** ** Notions used in the statements *)

Module Notions.
Import PyStr Pycco.

(** The fence of [renderer_flavors['markdown']]. *)
Definition fence : string := "```".

(** The non-empty lines of a chunk. *)
Definition pieces (t : string) : list string :=
  filter nonempty (split_chr nl_char t).

(** The non-empty lines of the sections, section after section. *)
Definition section_pieces (secs : list section) : list string :=
  flat_map (fun s => pieces (text s)) secs.

(** The line as the loop adds it to the buffer. *)
Definition entering_line (r : renderer) (line : string) : string :=
  match block_delimiters r with
  | Some (ms, me) =>
      if touches ms line || touches me line
      then strip_delimiters r ms me line else line
  | None => line
  end.

(** A line: a string without a newline. *)
Definition no_newline (l : string) : Prop := has_char nl_char l = false.

Definition all_nonempty (secs : list section) : Prop :=
  Forall (fun s => text s <> "") secs.

(** All the characters of [s] are in the class [p]. *)
Fixpoint all_chars (p : ascii -> bool) (s : string) : bool :=
  match s with
  | "" => true
  | String c t => p c && all_chars p t
  end.

(** [rest] does not go on with a character of the class [p]. *)
Definition stops (p : ascii -> bool) (rest : string) : bool :=
  match rest with
  | "" => true
  | String c _ => negb (p c)
  end.

(** The text of a run of lines in the buffer: each line behind a
    newline. *)
Fixpoint paragraph_text (lines : list string) : string :=
  match lines with
  | [] => ""
  | l :: rest => nl ++ l ++ paragraph_text rest
  end.

(** The runs of lines between the empty lines. *)
Fixpoint split_blank (lines : list string) : list (list string) :=
  match lines with
  | [] => [[]]
  | l :: rest =>
      if nonempty l
      then match split_blank rest with
           | g :: gs => (l :: g) :: gs
           | [] => [[l]]
           end
      else [] :: split_blank rest
  end.

Definition nonnil {A : Type} (l : list A) : bool :=
  match l with [] => false | _ :: _ => true end.

(** The paragraphs of a list of lines: the runs that are not empty. *)
Definition paragraphs (lines : list string) : list (list string) :=
  filter nonnil (split_blank lines).

(** How the text of a section begins: with a newline, or with a delimiter
    line of [body] as it entered the buffer. *)
Definition begins_as_section (r : renderer) (body : list string)
    (t : string) : Prop :=
  prefix nl t = true
  \/ exists line,
      In line body /\ is_delimiter_line r line = true
      /\ prefix (entering_line r line) t = true.

(** The loop keeps the beginnings: of the sections saved and of the
    buffer. *)
Definition beginnings_kept (r : renderer) (body : list string)
    (st : pstate) : Prop :=
  Forall (fun s => begins_as_section r body (text s)) (emitted st)
  /\ (chunk st = "" \/ begins_as_section r body (chunk st)).

(** The items that [n] calls of [shift] return, each call on the list that
    the call before has left. *)
Fixpoint shift_n {A : Type} (n : nat) (l : list A) (default : A) : list A :=
  match n with
  | 0 => []
  | S k => fst (shift l default) :: shift_n k (snd (shift l default)) default
  end.

(** The run in the buffer joined to the first run of what follows. *)
Definition prepend (cur : list string) (gs : list (list string))
    : list (list string) :=
  match gs with
  | g :: rest => (cur ++ g)%list :: rest
  | [] => [cur]
  end.

(** The loop keeps headings out: no section saved and no buffer begins with
    ["="]. *)
Definition no_heading_kept (st : pstate) : Prop :=
  Forall (fun s => prefix "=" (text s) = false) (emitted st)
  /\ prefix "=" (chunk st) = false.

End Notions.

(** ** Inputs of the examples *)

Module Samples.
Import PyStr Pycco.

(** The markdown renderer with the option to strip the delimiters. *)
Definition stripping_renderer : renderer :=
  {| multistart := Some "```"; multiend := Some "```";
     strip_multi_delimiters := true |}.

Definition fenced_text : string :=
  "Title" ++ nl ++ "```python" ++ nl ++ "code" ++ nl ++ "```".

Definition two_paragraphs : string :=
  "#!/bin/sh" ++ nl ++ "Title" ++ nl ++ "one" ++ nl ++ "two" ++ nl ++ nl
  ++ "```" ++ nl ++ nl ++ "three" ++ nl ++ "```".

(** A section after [highlight]. *)
Definition rendered (t h : string) (n : nat) : section :=
  {| text := t; html := Some h; num := Some n |}.

Definition source_3 : document :=
  {| title := "Guide";
     sections := [rendered "a" "<p>a</p>" 0; rendered "b" "<p>b</p>" 1;
                  rendered "c" "<p>c</p>" 2];
     language := "en" |}.

Definition translation_1 : document :=
  {| title := "Anleitung";
     sections := [rendered "x" "<p>x</p>" 0];
     language := "de" |}.

(** A [Locale.parse] that knows two locales. *)
Definition two_locales (identifier : string) : result (option string) :=
  if String.eqb identifier "en" then Ok (Some "en")
  else if String.eqb identifier "de_DE" then Ok (Some "de")
  else Raise (LocaleError identifier).

(** A resolver for the examples: [name] goes to [out/name.html]. *)
Definition html_destination (name : string) : string :=
  "out/" ++ name ++ ".html".

(** A renderer for the examples: the text between paragraph tags. *)
Definition paragraph (t : string) : string := "<p>" ++ t ++ "</p>".

Definition two_sections : document :=
  {| title := "Guide";
     sections := [new_section (nl ++ "See [[helpers]].");
                  new_section (nl ++ "Done.")];
     language := "en" |}.

(** A translation of one section. *)
Definition one_section : document :=
  {| title := "Anleitung";
     sections := [new_section (nl ++ "Siehe [[helpers]].")];
     language := "de" |}.

End Samples.

(** * Properties *)

(** ** Facts on the string built-ins *)

Module PyStrFacts.
Import PyStr Notions.

Lemma append_nil_r (s : string) : s ++ "" = s.
Proof. induction s as [|c s IH]; simpl; [reflexivity | now rewrite IH]. Qed.

Lemma append_assoc (a b c : string) : (a ++ b) ++ c = a ++ (b ++ c).
Proof. induction a as [|x a IH]; simpl; [reflexivity | now rewrite IH]. Qed.

Lemma length_append (a b : string) :
  String.length (a ++ b) = String.length a + String.length b.
Proof. induction a as [|x a IH]; simpl; [reflexivity | now rewrite IH]. Qed.

Lemma nonempty_append_r (a b : string) :
  nonempty b = true -> nonempty (a ++ b) = true.
Proof. destruct a; simpl; auto. Qed.

Lemma nonempty_false (s : string) : nonempty s = false -> s = "".
Proof. destruct s; simpl; [reflexivity | discriminate]. Qed.

Lemma prefix_append (p s : string) : prefix p (p ++ s) = true.
Proof.
  induction p as [|c p IH]; simpl.
  - now destruct s.
  - destruct (ascii_dec c c) as [_|N]; [exact IH | now elim N].
Qed.

Lemma prefix_split (p s : string) :
  prefix p s = true -> exists r, s = p ++ r.
Proof.
  revert s; induction p as [|c p IH]; intros s H.
  - now exists s.
  - destruct s as [|d s]; simpl in H; [discriminate|].
    destruct (ascii_dec c d) as [->|]; [|discriminate].
    destruct (IH _ H) as [r ->]. now exists r.
Qed.

Lemma prefix_nil_l (s : string) : prefix "" s = true.
Proof. now destruct s. Qed.

Lemma prefix_cons (a b : ascii) (p s : string) :
  prefix (String a p) (String b s)
  = if ascii_dec a b then prefix p s else false.
Proof. reflexivity. Qed.

Lemma prefix_nil_r (p : string) : nonempty p = true -> prefix p "" = false.
Proof. destruct p; simpl; [discriminate | reflexivity]. Qed.

Lemma endswith_nil_r (p : string) : nonempty p = true -> endswith p "" = false.
Proof. destruct p; simpl; [discriminate | reflexivity]. Qed.

(** *** split *)

Lemma split_chr_cons (sep : ascii) (s : string) :
  exists h r, split_chr sep s = h :: r.
Proof.
  induction s as [|c s (h & r & IH)]; simpl.
  - now exists "", [].
  - destruct (Ascii.eqb c sep); [now exists "", (split_chr sep s)|].
    rewrite IH. now exists (String c h), r.
Qed.

Lemma split_chr_append (sep : ascii) (a b : string) :
  split_chr sep (a ++ String sep b)
  = (split_chr sep a ++ split_chr sep b)%list.
Proof.
  induction a as [|c a IH]; simpl.
  - now rewrite Ascii.eqb_refl.
  - destruct (Ascii.eqb c sep); [now rewrite IH|].
    rewrite IH. destruct (split_chr_cons sep a) as (h & r & ->).
    reflexivity.
Qed.

Lemma split_chr_none (sep : ascii) (s : string) :
  has_char sep s = false -> split_chr sep s = [s].
Proof.
  induction s as [|c s IH]; simpl; [reflexivity|].
  intros H. apply Bool.orb_false_iff in H as [Hc Hs].
  rewrite Hc, (IH Hs). reflexivity.
Qed.

Lemma split_chr_pieces (sep : ascii) (s : string) :
  Forall (fun l => has_char sep l = false) (split_chr sep s).
Proof.
  induction s as [|c s IH]; simpl.
  - now repeat constructor.
  - destruct (Ascii.eqb c sep) eqn:E; [now constructor|].
    destruct (split_chr sep s) as [|h r]; [now repeat constructor; simpl; rewrite E|].
    inversion IH; subst. constructor; [|assumption].
    simpl. now rewrite E.
Qed.

(** *** replace *)

Lemma remove_from_skip (old x rest : string) :
  remove_from (String.length x) old (x ++ rest) = remove_from 0 old rest.
Proof. induction x as [|c x IH]; simpl; [now destruct rest | exact IH]. Qed.

(** The scan at an occurrence of [old] and at any other position. *)
Lemma remove_from_hit (c : ascii) (old rest : string) :
  remove_from 0 (String c old) (String c old ++ rest)
  = remove_from 0 (String c old) rest.
Proof.
  change (String c old ++ rest) with (String c (old ++ rest)).
  cbn [remove_from].
  change (String c (old ++ rest)) with (String c old ++ rest).
  rewrite prefix_append.
  replace (String.length (String c old) - 1) with (String.length old)
    by (simpl; lia).
  apply remove_from_skip.
Qed.

Lemma remove_from_miss (old : string) (c : ascii) (t : string) :
  prefix old (String c t) = false ->
  remove_from 0 old (String c t) = String c (remove_from 0 old t).
Proof. intros H. cbn [remove_from]. now rewrite H. Qed.

Lemma remove_from_has_char (c : ascii) (old s : string) (k : nat) :
  has_char c s = false -> has_char c (remove_from k old s) = false.
Proof.
  revert k; induction s as [|d s IH]; intros k H; [reflexivity|].
  simpl in H. apply Bool.orb_false_iff in H as [Hd Hs].
  cbn [remove_from]. destruct k as [|k]; [|now apply IH].
  destruct (prefix old (String d s)); [now apply IH|].
  simpl. now rewrite Hd, IH.
Qed.

Lemma remove_all_has_char (c : ascii) (old s : string) :
  has_char c s = false -> has_char c (remove_all old s) = false.
Proof.
  intros H. unfold remove_all. destruct (nonempty old); [|exact H].
  now apply remove_from_has_char.
Qed.

(** *** Removing the markdown fence *)

Lemma fence_scan (s : string) :
  (s = "" /\ remove_from 0 fence s = "")
  \/ (exists rest, s = fence ++ rest
                   /\ remove_from 0 fence s = remove_from 0 fence rest)
  \/ (exists c t, s = String c t /\ prefix fence s = false
                  /\ remove_from 0 fence s = String c (remove_from 0 fence t)).
Proof.
  destruct s as [|c t]; [now left|]. right.
  destruct (prefix fence (String c t)) eqn:E.
  - left. destruct (prefix_split _ _ E) as [rest ->].
    exists rest. split; [reflexivity|]. apply remove_from_hit.
  - right. exists c, t. split; [reflexivity|]. split; [reflexivity|].
    now apply remove_from_miss.
Qed.

Lemma fence_tick (s : string) :
  prefix "`" s = false -> prefix "`" (remove_from 0 fence s) = false.
Proof.
  intros H. destruct (fence_scan s) as [[-> ->]|[(rest & -> & _)|(c & t & -> & _ & ->)]].
  - reflexivity.
  - discriminate H.
  - rewrite prefix_cons in H |- *. destruct (ascii_dec "`" c); [|reflexivity].
    now rewrite prefix_nil_l in H.
Qed.

Lemma fence_two_ticks (s : string) :
  prefix "``" s = false -> prefix "``" (remove_from 0 fence s) = false.
Proof.
  intros H. destruct (fence_scan s) as [[-> ->]|[(rest & -> & _)|(c & t & -> & _ & ->)]].
  - reflexivity.
  - discriminate H.
  - rewrite prefix_cons in H |- *. destruct (ascii_dec "`" c); [|reflexivity].
    now apply fence_tick.
Qed.

Lemma fence_removed_bounded (n : nat) (s : string) :
  String.length s <= n -> contains fence (remove_from 0 fence s) = false.
Proof.
  revert s; induction n as [|n IH]; intros s Hn.
  - destruct s; [reflexivity | simpl in Hn; lia].
  - destruct (fence_scan s) as [[-> ->]|[(rest & -> & ->)|(c & t & -> & Hp & ->)]].
    + reflexivity.
    + apply IH. rewrite length_append in Hn. simpl in Hn. lia.
    + cbn [contains]. rewrite (IH t) by (simpl in Hn; lia).
      rewrite Bool.orb_false_r.
      unfold fence in Hp |- *. rewrite prefix_cons in Hp |- *.
      destruct (ascii_dec "`" c); [|reflexivity].
      now apply fence_two_ticks.
Qed.

(** Nothing of the fence is left once its occurrences are removed. *)
Lemma fence_removed (s : string) :
  contains fence (remove_all fence s) = false.
Proof. apply (fence_removed_bounded (String.length s)). lia. Qed.

End PyStrFacts.

(** ** The translation merger *)

Module Merger.
Import PyStr Pycco Samples.

Lemma izip_longest_nil_r {A B : Type} (l : list A) :
  izip_longest l (@nil B) = map (fun a => (Some a, None)) l.
Proof. induction l as [|a l IH]; simpl; [reflexivity | now rewrite IH]. Qed.

Lemma izip_longest_length {A B : Type} (l1 : list A) (l2 : list B) :
  List.length (izip_longest l1 l2) = Nat.max (List.length l1) (List.length l2).
Proof.
  revert l2; induction l1 as [|a l1 IH]; intros l2; simpl.
  - now rewrite length_map.
  - destruct l2 as [|b l2]; simpl; rewrite IH; simpl; lia.
Qed.

Lemma izip_longest_nth {A B : Type} (l1 : list A) (l2 : list B) (i : nat) :
  i < Nat.max (List.length l1) (List.length l2) ->
  nth_error (izip_longest l1 l2) i = Some (nth_error l1 i, nth_error l2 i).
Proof.
  revert l2 i; induction l1 as [|a l1 IH]; intros l2 i Hi.
  - simpl in Hi |- *. rewrite nth_error_map.
    destruct (nth_error l2 i) eqn:E.
    + now destruct i.
    + apply nth_error_None in E. lia.
  - destruct l2 as [|b l2]; destruct i as [|i]; simpl; try reflexivity.
    + rewrite IH by (simpl in Hi |- *; lia). now destruct i.
    + apply IH. simpl in Hi. lia.
Qed.

Lemma enumerate_from_length {A : Type} (k : nat) (l : list A) :
  List.length (enumerate_from k l) = List.length l.
Proof. revert k; induction l as [|x l IH]; intros k; simpl; auto. Qed.

Lemma enumerate_from_nth {A : Type} (k : nat) (l : list A) (i : nat) :
  nth_error (enumerate_from k l) i =
  option_map (fun x => (k + i, x)) (nth_error l i).
Proof.
  revert k i; induction l as [|x l IH]; intros k i.
  - now destruct i.
  - destruct i as [|i]; simpl.
    + now rewrite Nat.add_0_r.
    + rewrite IH. now rewrite Nat.add_succ_r.
Qed.

(** C7.  [merge_docs] returns as many sections as the longer of its two
    documents has; the section at position [i] carries the number [i], the
    html of the source's section [i] and the html of the translation's
    section [i], an empty string standing for a section or an html that is
    missing. *)
Theorem merge_docs_sections (a b : document) :
  List.length (merged_sections (merge_docs a b))
  = Nat.max (List.length (sections a)) (List.length (sections b))
  /\ forall i,
      i < Nat.max (List.length (sections a)) (List.length (sections b)) ->
      nth_error (merged_sections (merge_docs a b)) i
      = Some {| m_num := i;
                source_html := get_html (nth_error (sections a) i);
                translation_html := get_html (nth_error (sections b) i) |}.
Proof.
  split.
  - unfold merge_docs; simpl.
    now rewrite length_map, enumerate_from_length, izip_longest_length.
  - intros i Hi. unfold merge_docs; simpl.
    rewrite nth_error_map, enumerate_from_nth.
    rewrite (izip_longest_nth _ _ _ Hi). reflexivity.
Qed.

(** A source of three sections merged with a translation of one. *)
Lemma merge_docs_sections_witness :
  List.length (merged_sections (merge_docs source_3 translation_1)) = 3
  /\ nth_error (merged_sections (merge_docs source_3 translation_1)) 1
     = Some {| m_num := 1; source_html := "<p>b</p>";
               translation_html := "" |}
  /\ nth_error (merged_sections (merge_docs source_3 translation_1)) 2
     = Some {| m_num := 2; source_html := "<p>c</p>";
               translation_html := "" |}.
Proof.
  split; [exact (proj1 (merge_docs_sections source_3 translation_1))|].
  split.
  - apply (proj2 (merge_docs_sections source_3 translation_1) 1). simpl. lia.
  - apply (proj2 (merge_docs_sections source_3 translation_1) 2). simpl. lia.
Defined.

End Merger.

(** ** The section splitter *)

Module Splitter.
Import PyStr Pycco Notions Samples PyStrFacts.

Lemma is_delimiter_line_touches (r : renderer) (ms me line : string) :
  block_delimiters r = Some (ms, me) ->
  is_delimiter_line r line = touches ms line || touches me line.
Proof. intros H. unfold is_delimiter_line. now rewrite H. Qed.

Lemma parse_line_delimiter (r : renderer) (ms me : string) (st : pstate)
    (line : string) :
  block_delimiters r = Some (ms, me) ->
  is_delimiter_line r line = true ->
  parse_line r st line = delimiter_step r ms me st line.
Proof.
  intros Hd Hl. rewrite (is_delimiter_line_touches _ _ _ _ Hd) in Hl.
  unfold parse_line. now rewrite Hd, Hl.
Qed.

Lemma parse_line_plain (r : renderer) (st : pstate) (line : string) :
  is_delimiter_line r line = false ->
  parse_line r st line = plain_step st line.
Proof.
  unfold is_delimiter_line, parse_line.
  destruct (block_delimiters r) as [[ms me]|]; [|reflexivity].
  now intros ->.
Qed.

Lemma nonempty_nl_append (a b : string) : nonempty (a ++ nl ++ b) = true.
Proof. apply nonempty_append_r. reflexivity. Qed.

(** The delimiter branch when the flag ends up off: the line joins the
    buffer and the buffer is saved. *)
Lemma delimiter_step_off (r : renderer) (ms me : string) (st : pstate)
    (line : string) :
  multi_line (delimiter_step r ms me st line) = false ->
  delimiter_step r ms me st line
  = {| chunk := ""; multi_line := false;
       emitted := (emitted st
                   ++ [new_section
                         (chunk st ++ nl ++ strip_delimiters r ms me line)])%list
    |}.
Proof.
  unfold delimiter_step. cbv zeta. cbn [multi_line chunk emitted].
  match goal with |- (if ?c then _ else _) = _ -> _ =>
    remember (if c then false else negb (multi_line st)) as ml2 end.
  intros H. rewrite H. cbn [negb]. rewrite nonempty_nl_append.
  unfold save. now rewrite nonempty_nl_append.
Qed.

(** The delimiter branch when the flag ends up on: the previous buffer is
    saved and the line starts a new buffer. *)
Lemma delimiter_step_on (r : renderer) (ms me : string) (st : pstate)
    (line : string) :
  multi_line (delimiter_step r ms me st line) = true ->
  delimiter_step r ms me st line
  = {| chunk := strip_delimiters r ms me line; multi_line := true;
       emitted := save (emitted st) (chunk st) |}.
Proof.
  unfold delimiter_step. cbv zeta. cbn [multi_line chunk emitted].
  match goal with |- (if ?c then _ else _) = _ -> _ =>
    remember (if c then false else negb (multi_line st)) as ml2 end.
  intros H. rewrite H. cbn [negb]. unfold save.
  destruct (chunk st) as [|c s]; reflexivity.
Qed.

(** C2.  A delimiter line met with the flag off, whose trimmed content ends
    with the end delimiter and is longer than it, closes itself: the flag
    is off again, exactly one section is saved at this line (the buffer with
    the line appended), the buffer is empty, and the next line is handled by
    the rules for lines outside a block. *)
Theorem self_closing_block (r : renderer) (ms me : string) (st : pstate)
    (line : string) :
  block_delimiters r = Some (ms, me) ->
  is_delimiter_line r line = true ->
  multi_line st = false ->
  endswith me (strip line) = true ->
  String.length me < String.length (strip line) ->
  let st' := parse_line r st line in
  multi_line st' = false
  /\ chunk st' = ""
  /\ emitted st'
     = (emitted st
        ++ [new_section (chunk st ++ nl ++ strip_delimiters r ms me line)])%list
  /\ forall next,
      is_delimiter_line r next = false ->
      parse_line r st' next
      = if nonempty next
        then {| chunk := nl ++ next; multi_line := false;
                emitted := emitted st' |}
        else {| chunk := ""; multi_line := false; emitted := emitted st' |}.
Proof.
  intros Hd Hl Hoff Hend Hlen st'.
  assert (Hml : multi_line (delimiter_step r ms me st line) = false).
  { unfold delimiter_step; simpl. rewrite Hoff, Hend. simpl.
    apply Nat.ltb_lt in Hlen. now rewrite Hlen. }
  assert (E : st' = delimiter_step r ms me st line)
    by (apply parse_line_delimiter; assumption).
  rewrite (delimiter_step_off _ _ _ _ _ Hml) in E.
  rewrite E. simpl. repeat split.
  intros next Hn. rewrite (parse_line_plain _ _ _ Hn).
  unfold plain_step; simpl. destruct next; reflexivity.
Qed.

(** The line [```inline code```] under the markdown renderer. *)
Lemma self_closing_block_witness :
  let st' := parse_line default_renderer init_state "```inline code```" in
  multi_line st' = false
  /\ chunk st' = ""
  /\ emitted st' = [new_section (nl ++ "```inline code```")]
  /\ parse_line default_renderer st' "next"
     = {| chunk := nl ++ "next"; multi_line := false;
          emitted := emitted st' |}.
Proof.
  destruct (self_closing_block default_renderer "```" "```" init_state
              "```inline code```" eq_refl eq_refl eq_refl eq_refl
              ltac:(vm_compute; lia))
    as (H1 & H2 & H3 & H4).
  intros st'. split; [exact H1|]. split; [exact H2|]. split; [exact H3|].
  exact (H4 "next" eq_refl).
Defined.

(** C3, as stated, fails: under the markdown renderer, with ["abc"] in the
    buffer, the opening line [```py] saves the buffer as a section. *)
Lemma block_open_flushes_buffer :
  let st := parse_line default_renderer init_state "abc" in
  let st' := parse_line default_renderer st "```py" in
  chunk st = nl ++ "abc" /\ emitted st = []
  /\ multi_line st = false /\ multi_line st' = true
  /\ emitted st' = [new_section (nl ++ "abc")]
  /\ emitted st' <> emitted st
  /\ chunk st' = "```py".
Proof. vm_compute. repeat split; discriminate. Qed.

(** C3, amended.  A delimiter line that turns the flag on and does not
    close itself saves the buffer accumulated so far, when it is not empty,
    as a section of its own, and starts a new buffer with the line, from
    which the delimiters are removed when the renderer asks for it; the
    new buffer is not saved at this line. *)
Theorem block_open_step (r : renderer) (ms me : string) (st : pstate)
    (line : string) :
  block_delimiters r = Some (ms, me) ->
  is_delimiter_line r line = true ->
  multi_line st = false ->
  endswith me (strip line)
  && Nat.ltb (String.length me) (String.length (strip line)) = false ->
  let st' := parse_line r st line in
  multi_line st' = true
  /\ emitted st' = save (emitted st) (chunk st)
  /\ chunk st' = strip_delimiters r ms me line.
Proof.
  intros Hd Hl Hoff Hself st'.
  assert (Hml : multi_line (delimiter_step r ms me st line) = true).
  { unfold delimiter_step; simpl. rewrite Hoff. simpl.
    now rewrite Hself. }
  assert (E : st' = delimiter_step r ms me st line)
    by (apply parse_line_delimiter; assumption).
  rewrite (delimiter_step_on _ _ _ _ _ Hml) in E.
  rewrite E. simpl. repeat split.
Qed.

Lemma block_open_step_witness :
  let st := parse_line default_renderer init_state "abc" in
  let st' := parse_line default_renderer st "```py" in
  multi_line st' = true
  /\ emitted st' = [new_section (nl ++ "abc")]
  /\ chunk st' = "```py".
Proof.
  exact (block_open_step default_renderer "```" "```"
           (parse_line default_renderer init_state "abc") "```py"
           eq_refl eq_refl eq_refl eq_refl).
Defined.

(** *** Delimiter stripping *)

(** C1, as stated, fails: the renderer that [prepare_renderer] builds has
    no ["strip_multi_delimiters"], and the section of a fenced block keeps
    both fences. *)
Lemma default_renderer_keeps_delimiters :
  split_text default_renderer fenced_text
  = Ok ("Title", [new_section ("```python" ++ nl ++ "code" ++ nl ++ "```")])
  /\ contains "```" ("```python" ++ nl ++ "code" ++ nl ++ "```") = true.
Proof. split; reflexivity. Qed.

(** The same text under a renderer that asks for stripping. *)
Example stripping_renderer_fenced_text :
  split_text stripping_renderer fenced_text
  = Ok ("Title", [new_section ("python" ++ nl ++ "code" ++ nl)])
  /\ contains "```" ("python" ++ nl ++ "code" ++ nl) = false.
Proof. split; reflexivity. Qed.

(** C1, amended.  On a delimiter line, a renderer that sets
    ["strip_multi_delimiters"] makes the line enter the buffer with the
    occurrences of the start delimiter, then of the end delimiter, removed;
    with the markdown fence nothing of the fence is left in what enters.
    Without the option the line enters the buffer as it is, and no renderer
    that [prepare_renderer] returns has the option. *)
Theorem delimiter_line_stripping (r : renderer) (ms me : string) (st : pstate)
    (line : string) :
  block_delimiters r = Some (ms, me) ->
  is_delimiter_line r line = true ->
  let entering :=
    if strip_multi_delimiters r then remove_all me (remove_all ms line)
    else line in
  let st' := parse_line r st line in
  (if multi_line st'
   then chunk st' = entering /\ emitted st' = save (emitted st) (chunk st)
   else chunk st' = ""
        /\ emitted st'
           = (emitted st ++ [new_section (chunk st ++ nl ++ entering)])%list)
  /\ (strip_multi_delimiters r = true -> ms = "```" -> me = "```" ->
      contains "```" entering = false)
  /\ forall e, strip_delimiters (prepare_renderer e) ms me line = line.
Proof.
  intros Hd Hl entering st'. split; [|split; [|reflexivity]].
  - assert (E : st' = delimiter_step r ms me st line)
      by (apply parse_line_delimiter; assumption).
    destruct (multi_line st') eqn:M; rewrite E in M |- *.
    + rewrite (delimiter_step_on _ _ _ _ _ M). now split.
    + rewrite (delimiter_step_off _ _ _ _ _ M). now split.
  - intros Hs -> ->. unfold entering. rewrite Hs. apply fence_removed.
Qed.

Lemma delimiter_line_stripping_witness :
  let st' := parse_line stripping_renderer init_state "```python" in
  (chunk st' = "python" /\ emitted st' = [])
  /\ contains "```" "python" = false.
Proof.
  destruct (delimiter_line_stripping stripping_renderer "```" "```"
              init_state "```python" eq_refl eq_refl) as (H1 & H2 & _).
  split; [exact H1 | exact (H2 eq_refl eq_refl eq_refl)].
Defined.

(** *** Errors and leniency *)

(** C4.  A text that is nothing but an interpreter line makes the split
    raise: the line is popped and [lines.pop(0)] for the title finds the
    list empty.  So [parse] raises on it whatever the file name. *)
Theorem shebang_only_raises (r : renderer) :
  split_text r "#!/usr/bin/env python"
  = Raise (IndexError "pop from empty list")
  /\ forall Locale_parse source forced,
      exists e,
        parse Locale_parse source "#!/usr/bin/env python" forced r = Raise e.
Proof.
  split; [reflexivity|].
  intros Locale_parse source forced. unfold parse.
  destruct (get_language Locale_parse source _ forced) as [lang|e]; simpl;
    eauto.
Qed.

Lemma split_chr_has_sep (sep : ascii) (s : string) :
  has_char sep s = true -> exists h h' r, split_chr sep s = h :: h' :: r.
Proof.
  induction s as [|c s IH]; simpl; [discriminate|].
  destruct (Ascii.eqb c sep) eqn:E; simpl.
  - intros _. destruct (split_chr_cons sep s) as (h & r & ->).
    now exists "", h, r.
  - intros H. destruct (IH H) as (h & h' & r & ->).
    now exists (String c h), h', r.
Qed.

(** Every other text is split without an error: the first line left after
    the interpreter line is the title, and the buffer that is left after
    the last line, be it of a block that was never closed, is saved. *)
Lemma split_text_returns (r : renderer) (txt : string) :
  has_char nl_char txt = true \/ startswith "#!" txt = false ->
  exists ttl body,
    drop_shebang (split_chr nl_char txt) = ttl :: body
    /\ split_text r txt
       = Ok (ttl, save (emitted (parse_lines r init_state body))
                       (chunk (parse_lines r init_state body))).
Proof.
  intros H. unfold split_text.
  assert (E : exists ttl body,
             drop_shebang (split_chr nl_char txt) = ttl :: body).
  { destruct (has_char nl_char txt) eqn:Hnl.
    - destruct (split_chr_has_sep _ _ Hnl) as (h & h' & rest & ->).
      simpl. destruct (startswith "#!" h); eauto.
    - destruct H as [H|H]; [discriminate|].
      rewrite (split_chr_none _ _ Hnl). simpl. rewrite H. eauto. }
  destruct E as (ttl & body & E). exists ttl, body. now rewrite E.
Qed.

(** The texts on which the split raises are the single lines that begin
    with ["#!"]. *)
Lemma lone_shebang_raises (r : renderer) (line : string) :
  has_char nl_char line = false -> startswith "#!" line = true ->
  split_text r line = Raise (IndexError "pop from empty list").
Proof.
  intros Hnl Hs. unfold split_text. rewrite (split_chr_none _ _ Hnl).
  cbn [drop_shebang]. now rewrite Hs.
Qed.

(** A block that is opened and never closed. *)
Example unterminated_block :
  split_text default_renderer ("Title" ++ nl ++ "```" ++ nl ++ "abc")
  = Ok ("Title", [new_section ("```" ++ nl ++ "abc")]).
Proof. reflexivity. Qed.

(** *** Sections are not empty and keep the order of the lines *)

Lemma pieces_line (l : string) :
  no_newline l -> pieces l = filter nonempty [l].
Proof. intros H. unfold pieces. now rewrite (split_chr_none _ _ H). Qed.

Lemma pieces_append (a l : string) :
  no_newline l -> pieces (a ++ nl ++ l) = (pieces a ++ filter nonempty [l])%list.
Proof.
  intros H. unfold pieces.
  change (a ++ nl ++ l) with (a ++ String nl_char l).
  now rewrite split_chr_append, filter_app, (split_chr_none _ _ H).
Qed.

Lemma section_pieces_app (a b : list section) :
  section_pieces (a ++ b) = (section_pieces a ++ section_pieces b)%list.
Proof. apply flat_map_app. Qed.

Lemma section_pieces_save (secs : list section) (c : string) :
  section_pieces (save secs c) = (section_pieces secs ++ pieces c)%list.
Proof.
  unfold save. destruct c as [|x c]; simpl.
  - now rewrite app_nil_r.
  - rewrite section_pieces_app. simpl. now rewrite app_nil_r.
Qed.

Lemma strip_delimiters_no_newline (r : renderer) (ms me l : string) :
  no_newline l -> no_newline (strip_delimiters r ms me l).
Proof.
  unfold no_newline, strip_delimiters. intros H.
  destruct (strip_multi_delimiters r); [|exact H].
  now apply remove_all_has_char, remove_all_has_char.
Qed.

Lemma parse_line_pieces (r : renderer) (st : pstate) (line : string) :
  no_newline line ->
  (section_pieces (emitted (parse_line r st line))
   ++ pieces (chunk (parse_line r st line)))%list
  = ((section_pieces (emitted st) ++ pieces (chunk st))
     ++ filter nonempty [entering_line r line])%list.
Proof.
  intros Hl.
  assert (Hplain :
    (section_pieces (emitted (plain_step st line))
     ++ pieces (chunk (plain_step st line)))%list
    = ((section_pieces (emitted st) ++ pieces (chunk st))
       ++ filter nonempty [line])%list).
  { unfold plain_step.
    destruct (multi_line st); [|destruct (nonempty line) eqn:Hn];
      cbn [emitted chunk].
    - now rewrite (pieces_append _ _ Hl), app_assoc.
    - now rewrite (pieces_append _ _ Hl), app_assoc.
    - rewrite section_pieces_save. apply nonempty_false in Hn. subst line.
      reflexivity. }
  unfold parse_line, entering_line.
  destruct (block_delimiters r) as [[ms me]|]; [|exact Hplain].
  destruct (touches ms line || touches me line); [|exact Hplain].
  pose proof (strip_delimiters_no_newline r ms me line Hl) as Hl'.
  destruct (multi_line (delimiter_step r ms me st line)) eqn:M.
  - rewrite (delimiter_step_on _ _ _ _ _ M). cbn [emitted chunk].
    now rewrite section_pieces_save, (pieces_line _ Hl').
  - rewrite (delimiter_step_off _ _ _ _ _ M). cbn [emitted chunk].
    rewrite section_pieces_app. cbn [section_pieces flat_map text new_section].
    rewrite (pieces_append _ _ Hl'), !app_nil_r. now rewrite app_assoc.
Qed.

Lemma parse_lines_pieces (r : renderer) (lines : list string) (st : pstate) :
  Forall no_newline lines ->
  (section_pieces (emitted (parse_lines r st lines))
   ++ pieces (chunk (parse_lines r st lines)))%list
  = ((section_pieces (emitted st) ++ pieces (chunk st))
     ++ filter nonempty (map (entering_line r) lines))%list.
Proof.
  revert st; induction lines as [|l lines IH]; intros st H.
  - simpl. now rewrite app_nil_r.
  - inversion H; subst. cbn [parse_lines fold_left].
    change (fold_left (parse_line r) lines (parse_line r st l))
      with (parse_lines r (parse_line r st l) lines).
    rewrite IH by assumption. rewrite parse_line_pieces by assumption.
    rewrite <- !app_assoc. f_equal. f_equal.
    cbn [map filter]. now destruct (nonempty (entering_line r l)).
Qed.

Lemma save_nonempty (secs : list section) (c : string) :
  all_nonempty secs -> all_nonempty (save secs c).
Proof.
  intros H. unfold save. destruct c as [|x c]; simpl; [exact H|].
  apply Forall_app. split; [exact H|]. now repeat constructor.
Qed.

Lemma parse_line_nonempty (r : renderer) (st : pstate) (line : string) :
  all_nonempty (emitted st) -> all_nonempty (emitted (parse_line r st line)).
Proof.
  intros H.
  assert (Hplain : all_nonempty (emitted (plain_step st line))).
  { unfold plain_step.
    destruct (multi_line st); [|destruct (nonempty line)];
      cbn [emitted]; auto using save_nonempty. }
  unfold parse_line.
  destruct (block_delimiters r) as [[ms me]|]; [|exact Hplain].
  destruct (touches ms line || touches me line); [|exact Hplain].
  destruct (multi_line (delimiter_step r ms me st line)) eqn:M.
  - rewrite (delimiter_step_on _ _ _ _ _ M). cbn [emitted].
    now apply save_nonempty.
  - rewrite (delimiter_step_off _ _ _ _ _ M). cbn [emitted].
    apply Forall_app. split; [exact H|]. repeat constructor.
    cbn [text new_section]. intros E.
    pose proof (nonempty_nl_append (chunk st) (strip_delimiters r ms me line)).
    rewrite E in *. discriminate.
Qed.

Lemma parse_lines_nonempty (r : renderer) (lines : list string) (st : pstate) :
  all_nonempty (emitted st) ->
  all_nonempty (emitted (parse_lines r st lines)).
Proof.
  revert st; induction lines as [|l lines IH]; intros st H; [exact H|].
  apply IH. now apply parse_line_nonempty.
Qed.

Lemma drop_shebang_pieces (lines : list string) :
  Forall no_newline lines -> Forall no_newline (drop_shebang lines).
Proof.
  intros H. destruct lines as [|l lines]; [exact H|]. simpl.
  destruct (startswith "#!" l); [now inversion H | exact H].
Qed.

(** *** Blank texts *)

Lemma block_delimiters_nonempty (r : renderer) (ms me : string) :
  block_delimiters r = Some (ms, me) ->
  nonempty ms = true /\ nonempty me = true.
Proof.
  unfold block_delimiters.
  destruct (multistart r) as [a|]; [|discriminate].
  destruct (multiend r) as [b|]; [|discriminate].
  destruct (nonempty a) eqn:Ea; destruct (nonempty b) eqn:Eb;
    simpl; try discriminate.
  intros [= <- <-]. now split.
Qed.

Lemma touches_empty (d : string) : nonempty d = true -> touches d "" = false.
Proof.
  intros H. unfold touches, startswith. cbn [lstrip rstrip].
  now rewrite prefix_nil_r, endswith_nil_r.
Qed.

Lemma parse_line_blank (r : renderer) : parse_line r init_state "" = init_state.
Proof.
  unfold parse_line.
  destruct (block_delimiters r) as [[ms me]|] eqn:E; [|reflexivity].
  destruct (block_delimiters_nonempty _ _ _ E) as [Hs He].
  now rewrite (touches_empty _ Hs), (touches_empty _ He).
Qed.

Lemma parse_lines_blank (r : renderer) (n : nat) :
  parse_lines r init_state (repeat "" n) = init_state.
Proof.
  induction n as [|n IH]; [reflexivity|].
  cbn [repeat parse_lines fold_left]. rewrite parse_line_blank. exact IH.
Qed.

Lemma split_chr_blank (n : nat) :
  split_chr nl_char (repeat_str nl n) = repeat "" (S n).
Proof.
  induction n as [|n IH]; [reflexivity|].
  change (repeat_str nl (S n)) with (String nl_char (repeat_str nl n)).
  cbn [split_chr]. rewrite Ascii.eqb_refl, IH. reflexivity.
Qed.

(** C8.  Every section that the split returns has a non-empty text; read
    section after section, the non-empty lines of the sections are the
    non-empty lines of the text after its title, in their order, each as it
    entered the buffer; and a text of blank lines only gives no section. *)
Theorem sections_nonempty_in_order (r : renderer) :
  (forall txt ttl secs,
      split_text r txt = Ok (ttl, secs) ->
      (forall s, In s secs -> text s <> "")
      /\ exists body,
          drop_shebang (split_chr nl_char txt) = ttl :: body
          /\ section_pieces secs
             = filter nonempty (map (entering_line r) body))
  /\ forall n, split_text r (repeat_str nl n) = Ok ("", []).
Proof.
  split.
  - intros txt ttl secs. unfold split_text.
    pose proof (drop_shebang_pieces _ (split_chr_pieces nl_char txt)) as Hnl.
    destruct (drop_shebang (split_chr nl_char txt)) as [|t body];
      [discriminate|].
    intros [= <- <-]. split.
    + apply Forall_forall. apply save_nonempty.
      apply parse_lines_nonempty. constructor.
    + exists body. split; [reflexivity|].
      inversion Hnl; subst.
      rewrite section_pieces_save, parse_lines_pieces by assumption.
      reflexivity.
  - intros n. unfold split_text. rewrite split_chr_blank.
    cbn [repeat drop_shebang]. cbn [startswith prefix].
    now rewrite parse_lines_blank.
Qed.

Lemma sections_nonempty_in_order_witness :
  split_text default_renderer two_paragraphs
  = Ok ("Title",
        [new_section (nl ++ "one" ++ nl ++ "two");
         new_section ("```" ++ nl ++ nl ++ "three" ++ nl ++ "```")])
  /\ section_pieces
       [new_section (nl ++ "one" ++ nl ++ "two");
        new_section ("```" ++ nl ++ nl ++ "three" ++ nl ++ "```")]
     = ["one"; "two"; "```"; "three"; "```"].
Proof.
  split; [reflexivity|].
  destruct (proj1 (sections_nonempty_in_order default_renderer)
              two_paragraphs "Title"
              [new_section (nl ++ "one" ++ nl ++ "two");
               new_section ("```" ++ nl ++ nl ++ "three" ++ nl ++ "```")]
              eq_refl) as [_ (body & Hb & Hp)].
  injection Hb as <-. exact Hp.
Defined.

End Splitter.

(** ** The language of a document *)

Module Language.
Import PyStr Pycco Samples.

(** C10.  Without a forced language, [parse] looks at the file name before
    it looks at the text: the part of the basename in front of its last
    extension is handed to [Locale.parse].  When the basename has no such
    part, or [Locale.parse] raises or returns nothing, [parse] raises,
    whatever the text; otherwise the document gets the locale's language. *)
Theorem parse_language_from_file_name
    (Locale_parse : string -> result (option string))
    (source txt : string) (r : renderer) :
  (match_stem (basename source) = None ->
   parse Locale_parse source txt None r
   = Raise (ValueError "Can't figure out the language!"))
  /\ forall stem,
      match_stem (basename source) = Some stem ->
      match Locale_parse stem with
      | Ok (Some lang) =>
          parse Locale_parse source txt None r
          = (body <- split_text r txt ;;
             Ok {| title := fst body; sections := snd body;
                   language := lang |})
      | Ok None =>
          parse Locale_parse source txt None r
          = Raise (ValueError "Can't figure out the language!")
      | Raise e => parse Locale_parse source txt None r = Raise e
      end.
Proof.
  split.
  - intros H. unfold parse, get_language. now rewrite H.
  - intros stem H. unfold parse, get_language. rewrite H.
    destruct (Locale_parse stem) as [[lang|]|e]; reflexivity.
Qed.

(** One text under three file names. *)
Lemma parse_language_from_file_name_witness :
  parse two_locales "docs/en.md" ("Title" ++ nl ++ "body") None
    default_renderer
  = Ok {| title := "Title"; sections := [new_section (nl ++ "body")];
          language := "en" |}
  /\ parse two_locales "docs/notes.md" ("Title" ++ nl ++ "body") None
       default_renderer
     = Raise (LocaleError "notes")
  /\ parse two_locales "docs/README" ("Title" ++ nl ++ "body") None
       default_renderer
     = Raise (ValueError "Can't figure out the language!").
Proof.
  split; [|split].
  - exact (proj2 (parse_language_from_file_name two_locales "docs/en.md"
                    ("Title" ++ nl ++ "body") default_renderer)
             "en" eq_refl).
  - exact (proj2 (parse_language_from_file_name two_locales "docs/notes.md"
                    ("Title" ++ nl ++ "body") default_renderer)
             "notes" eq_refl).
  - exact (proj1 (parse_language_from_file_name two_locales "docs/README"
                    ("Title" ++ nl ++ "body") default_renderer)
             eq_refl).
Defined.

End Language.

(** ** The comment preprocessor *)

Module Preprocessor.
Import PyStr Pycco Notions Samples PyStrFacts.

Lemma has_char_append (c : ascii) (a b : string) :
  has_char c (a ++ b) = has_char c a || has_char c b.
Proof.
  induction a as [|x a IH]; simpl; [reflexivity|].
  now rewrite IH, Bool.orb_assoc.
Qed.

(** *** The pattern of a cross-reference *)

Lemma lazy_rest_shape (t g : string) :
  lazy_rest t = Some g ->
  exists rest, t = g ++ "]]" ++ rest /\ has_char nl_char g = false.
Proof.
  revert g; induction t as [|a t IH]; intros g; [discriminate|].
  cbn [lazy_rest].
  destruct (prefix "]]" (String a t)) eqn:P.
  - intros [= <-]. destruct (prefix_split _ _ P) as [rest E].
    exists rest. now split.
  - destruct (Ascii.eqb a nl_char) eqn:N; [discriminate|].
    destruct (lazy_rest t) as [g'|]; [|discriminate].
    intros [= <-]. destruct (IH _ eq_refl) as [rest [-> H]].
    exists rest. split; [reflexivity|].
    cbn [has_char]. now rewrite N, H.
Qed.

Lemma lazy_rest_hit (s : string) :
  prefix "]]" s = true -> lazy_rest s = Some "".
Proof. destruct s; [discriminate|]. cbn [lazy_rest]. now intros ->. Qed.

Lemma lazy_rest_found (g rest : string) :
  has_char "]" g = false -> has_char nl_char g = false ->
  lazy_rest (g ++ "]]" ++ rest) = Some g.
Proof.
  induction g as [|a g IH]; intros Hb Hn;
    [apply lazy_rest_hit, (prefix_append "]]" rest)|].
  cbn [has_char] in Hb, Hn.
  apply Bool.orb_false_iff in Hb as [Hb1 Hb2].
  apply Bool.orb_false_iff in Hn as [Hn1 Hn2].
  change (String a g ++ "]]" ++ rest) with (String a (g ++ "]]" ++ rest)).
  cbn [lazy_rest]. rewrite prefix_cons.
  destruct (ascii_dec "]" a) as [<-|_]; [discriminate Hb1|].
  rewrite Hn1, (IH Hb2 Hn2). reflexivity.
Qed.

Lemma match_crossref_shape (s g : string) :
  match_crossref s = Some g ->
  exists c rest,
    s = String c ("[[" ++ g ++ "]]" ++ rest)
    /\ c <> "`"%char /\ nonempty g = true /\ has_char nl_char g = false.
Proof.
  unfold match_crossref.
  destruct s as [|c [|b1 [|b2 [|g0 t]]]]; try discriminate.
  destruct (Ascii.eqb c "`") eqn:C; [discriminate|].
  destruct (Ascii.eqb b1 "[") eqn:B1; [|discriminate].
  destruct (Ascii.eqb b2 "[") eqn:B2; [|discriminate].
  destruct (Ascii.eqb g0 nl_char) eqn:N; [discriminate|].
  cbn [negb andb].
  destruct (lazy_rest t) as [g'|] eqn:L; [|discriminate].
  intros [= <-]. destruct (lazy_rest_shape _ _ L) as [rest [-> H]].
  apply Ascii.eqb_eq in B1, B2. subst b1 b2.
  exists c, rest. split; [reflexivity|]. split.
  - intros ->. discriminate C.
  - split; [reflexivity|]. cbn [has_char]. now rewrite N, H.
Qed.

Lemma match_crossref_found (c : ascii) (g rest : string) :
  c <> "`"%char -> nonempty g = true ->
  has_char "]" g = false -> has_char nl_char g = false ->
  match_crossref (String c ("[[" ++ g ++ "]]" ++ rest)) = Some g.
Proof.
  intros Hc Hg Hb Hn. destruct g as [|g0 g]; [discriminate|].
  cbn [has_char] in Hb, Hn.
  apply Bool.orb_false_iff in Hb as [Hb1 Hb2].
  apply Bool.orb_false_iff in Hn as [Hn1 Hn2].
  change (String c ("[[" ++ String g0 g ++ "]]" ++ rest))
    with (String c (String "[" (String "[" (String g0 (g ++ "]]" ++ rest))))).
  unfold match_crossref.
  apply Ascii.eqb_neq in Hc. rewrite Hc, Hn1, !Ascii.eqb_refl.
  cbn [negb andb]. now rewrite (lazy_rest_found _ _ Hb2 Hn2).
Qed.

(** No match starts at a character that is not followed by ["[["]. *)
Lemma match_crossref_no_brackets (c : ascii) (t : string) :
  prefix "[[" t = false -> match_crossref (String c t) = None.
Proof.
  unfold match_crossref. destruct t as [|b1 [|b2 [|g0 t]]]; try reflexivity.
  rewrite !prefix_cons, prefix_nil_l.
  destruct (Ascii.eqb b1 "[") eqn:B1;
    [|now rewrite Bool.andb_false_r].
  destruct (Ascii.eqb b2 "[") eqn:B2;
    [|now rewrite Bool.andb_false_r].
  apply Ascii.eqb_eq in B1, B2. subst.
  destruct (ascii_dec "[" "["); [|contradiction].
  destruct (ascii_dec "[" "["); [discriminate|contradiction].
Qed.

(** *** The substitution of cross-references *)

Lemma prefix_bracket (t : string) :
  prefix "[" t = false -> prefix "[[" t = false.
Proof.
  destruct t as [|b t]; [reflexivity|]. rewrite !prefix_cons.
  destruct (ascii_dec "[" b); [|reflexivity].
  now rewrite prefix_nil_l.
Qed.

Lemma has_char_prefix (c : ascii) (s : string) :
  has_char c s = false -> prefix (String c "") s = false.
Proof.
  destruct s as [|d s]; [reflexivity|]. cbn [has_char]. rewrite prefix_cons.
  intros H. apply Bool.orb_false_iff in H as [H _].
  destruct (ascii_dec c d) as [->|]; [|reflexivity].
  now rewrite Ascii.eqb_refl in H.
Qed.

Section Scan.

Variable destination : string -> string.

Lemma sub_crossref_skip (x rest : string) :
  sub_crossref_from destination (String.length x) (x ++ rest)
  = sub_crossref destination rest.
Proof.
  induction x as [|c x IH]; [reflexivity|]. exact IH.
Qed.

(** The scan at a match. *)
Lemma sub_crossref_hit (c : ascii) (g rest : string) :
  match_crossref (String c ("[[" ++ g ++ "]]" ++ rest)) = Some g ->
  sub_crossref destination (String c ("[[" ++ g ++ "]]" ++ rest))
  = (link <- replace_crossref destination g ;;
     out <- sub_crossref destination rest ;;
     Ok (link ++ out)).
Proof.
  intros H. unfold sub_crossref at 1. cbn [sub_crossref_from]. rewrite H.
  assert (E : sub_crossref_from destination (String.length g + 4)
                ("[[" ++ g ++ "]]" ++ rest)
              = sub_crossref destination rest).
  { rewrite <- (sub_crossref_skip ("[[" ++ g ++ "]]") rest). f_equal.
    - simpl. rewrite length_append. simpl. lia.
    - simpl. now rewrite append_assoc. }
  destruct (replace_crossref destination g); cbn [bind]; [|reflexivity].
  now rewrite E.
Qed.

(** The scan at a position without a match. *)
Lemma sub_crossref_miss (c : ascii) (t : string) :
  match_crossref (String c t) = None ->
  sub_crossref destination (String c t)
  = (out <- sub_crossref destination t ;; Ok (String c out)).
Proof.
  intros H. unfold sub_crossref at 1. cbn [sub_crossref_from].
  now rewrite H.
Qed.

(** Text free of ["["], in front of a character that is not ["["], is
    copied. *)
Lemma sub_crossref_copy (pre tail : string) :
  has_char "[" pre = false -> prefix "[" tail = false ->
  sub_crossref destination (pre ++ tail)
  = (out <- sub_crossref destination tail ;; Ok (pre ++ out)).
Proof.
  intros Hp Ht. induction pre as [|a pre IH].
  - simpl. now destruct (sub_crossref destination tail).
  - cbn [has_char] in Hp. apply Bool.orb_false_iff in Hp as [Ha Hp].
    change (String a pre ++ tail) with (String a (pre ++ tail)).
    rewrite sub_crossref_miss.
    + rewrite (IH Hp). now destruct (sub_crossref destination tail).
    + apply match_crossref_no_brackets, prefix_bracket.
      destruct pre as [|b pre]; [exact Ht|].
      cbn [has_char] in Hp. apply Bool.orb_false_iff in Hp as [Hb _].
      change (String b pre ++ tail) with (String b (pre ++ tail)).
      rewrite prefix_cons. destruct (ascii_dec "[" b) as [<-|]; [|reflexivity].
      discriminate Hb.
Qed.

Lemma sub_crossref_plain (s : string) :
  has_char "[" s = false -> sub_crossref destination s = Ok s.
Proof.
  intros H. rewrite <- (append_nil_r s) at 1.
  rewrite (sub_crossref_copy s "" H eq_refl). cbn. now rewrite append_nil_r.
Qed.

End Scan.

(** *** The pattern of a heading *)

Lemma span_run (p : ascii -> bool) (a rest : string) :
  all_chars p a = true -> stops p rest = true ->
  span p (a ++ rest) = (a, rest).
Proof.
  intros Ha Hr. induction a as [|c a IH].
  - destruct rest as [|d rest]; [reflexivity|].
    cbn [append span]. cbn [stops] in Hr.
    apply Bool.negb_true_iff in Hr. now rewrite Hr.
  - cbn [all_chars] in Ha. apply Bool.andb_true_iff in Ha as [Hc Ha].
    cbn [append span]. now rewrite Hc, (IH Ha).
Qed.

Lemma all_chars_repeat (p : ascii -> bool) (c : ascii) (n : nat) :
  p c = true -> all_chars p (repeat_str (String c "") n) = true.
Proof.
  intros H. induction n as [|n IH]; [reflexivity|].
  cbn [repeat_str append all_chars]. now rewrite H, IH.
Qed.

Lemma all_chars_not_eq (s : string) :
  has_char "=" s = false -> all_chars (fun c => negb (is_eq c)) s = true.
Proof.
  induction s as [|c s IH]; [reflexivity|]. cbn [has_char all_chars].
  intros H. apply Bool.orb_false_iff in H as [Hc Hs].
  unfold is_eq at 1. now rewrite Hc, (IH Hs).
Qed.

Lemma re_space_not_eq (c : ascii) : re_space c = true -> is_eq c = false.
Proof.
  intros H. unfold is_eq. destruct (Ascii.eqb c "=") eqn:E; [|reflexivity].
  apply Ascii.eqb_eq in E. subst c. discriminate H.
Qed.

Lemma eq_to_hash_repeat (n : nat) :
  eq_to_hash (repeat_str "=" n) = repeat_str "#" n.
Proof.
  induction n as [|n IH]; [reflexivity|].
  cbn [repeat_str append eq_to_hash]. now rewrite IH.
Qed.

Lemma match_section_name_found (k j : nat) (body ws : string) :
  nonempty body = true -> has_char "=" body = false ->
  all_chars re_space ws = true -> (j = 0 -> ws = "") ->
  match_section_name
    (repeat_str "=" (S k) ++ body ++ repeat_str "=" j ++ ws)
  = Some (repeat_str "=" (S k), body).
Proof.
  intros Hb He Hw Hj. unfold match_section_name.
  rewrite (span_run is_eq).
  2: now apply all_chars_repeat.
  2: { destruct body as [|b body]; [discriminate|].
       cbn [has_char] in He. apply Bool.orb_false_iff in He as [Hc _].
       cbn [append stops]. unfold is_eq. now rewrite Hc. }
  rewrite (span_run (fun c => negb (is_eq c))).
  2: now apply all_chars_not_eq.
  2: { destruct j as [|j]; [now rewrite (Hj eq_refl)|reflexivity]. }
  rewrite (span_run is_eq).
  2: now apply all_chars_repeat.
  2: { destruct ws as [|w ws]; [reflexivity|].
       cbn [all_chars] in Hw. apply Bool.andb_true_iff in Hw as [Hc _].
       cbn [stops]. now rewrite (re_space_not_eq _ Hc). }
  rewrite <- (append_nil_r ws) at 1.
  rewrite (span_run re_space _ "" Hw eq_refl).
  now rewrite Hb.
Qed.

Lemma span_shape (p : ascii -> bool) (s a r : string) :
  span p s = (a, r) ->
  s = a ++ r /\ all_chars p a = true /\ stops p r = true.
Proof.
  revert a r; induction s as [|c s IH]; intros a r; cbn [span].
  - intros [= <- <-]. now repeat split.
  - destruct (p c) eqn:Hc.
    + destruct (span p s) as [a' r']. intros [= <- <-].
      destruct (IH _ _ eq_refl) as (-> & Ha & Hr).
      cbn [append all_chars]. now rewrite Hc, Ha.
    + intros [= <- <-]. cbn [append all_chars stops]. now rewrite Hc.
Qed.

(** The heading pattern matches no other texts than those of
    [match_section_name_found]. *)
Lemma match_section_name_shape (s g1 g2 : string) :
  match_section_name s = Some (g1, g2) ->
  exists eqs ws,
    s = g1 ++ g2 ++ eqs ++ ws
    /\ nonempty g1 = true /\ all_chars is_eq g1 = true
    /\ nonempty g2 = true /\ all_chars (fun c => negb (is_eq c)) g2 = true
    /\ all_chars is_eq eqs = true /\ all_chars re_space ws = true.
Proof.
  unfold match_section_name.
  destruct (span is_eq s) as [a1 r1] eqn:E1.
  destruct (span (fun c => negb (is_eq c)) r1) as [a2 r2] eqn:E2.
  destruct (span is_eq r2) as [a3 r3] eqn:E3.
  destruct (span re_space r3) as [a4 r4] eqn:E4.
  destruct (nonempty a1) eqn:N1; [|discriminate].
  destruct (nonempty a2) eqn:N2; [|discriminate].
  destruct (nonempty r4) eqn:N4; [discriminate|].
  intros [= <- <-]. apply nonempty_false in N4. subst r4.
  destruct (span_shape _ _ _ _ E1) as (-> & H1 & _).
  destruct (span_shape _ _ _ _ E2) as (-> & H2 & _).
  destruct (span_shape _ _ _ _ E3) as (-> & H3 & _).
  destruct (span_shape _ _ _ _ E4) as (-> & H4 & _).
  exists a3, a4. rewrite append_nil_r. now repeat split.
Qed.

(** A text that does not begin with ["="] is not a heading. *)
Lemma sub_section_name_other (s : string) :
  prefix "=" s = false -> sub_section_name s = s.
Proof.
  intros H. unfold sub_section_name, match_section_name.
  assert (E : span is_eq s = ("", s)).
  { destruct s as [|c s]; [reflexivity|]. rewrite prefix_cons in H.
    cbn [span]. unfold is_eq. destruct (Ascii.eqb c "=") eqn:C; [|reflexivity].
    apply Ascii.eqb_eq in C. subst c.
    destruct (ascii_dec "=" "="); [|contradiction].
    now rewrite prefix_nil_l in H. }
  rewrite E.
  destruct (span (fun c => negb (is_eq c)) s) as [g2 r2].
  destruct (span is_eq r2) as [g3 r3].
  destruct (span re_space r3) as [g4 r4]. reflexivity.
Qed.

(** C5.  A comment line [=== Setup ===] is not turned into a heading.  The
    section that [parse] makes of the line begins with a newline, and
    [preprocess] returns that section as it is, without ["#"], span or
    anchor; a heading line that follows another line of the comment is kept
    in the same way.  The docstring of [preprocess] announces the rewriting
    for a line of this form; the pattern, used without the multi-line flag,
    is anchored at the two ends of the whole comment. *)
Lemma heading_line_within_comment_kept :
  split_text default_renderer ("Title" ++ nl ++ "=== Setup ===")
  = Ok ("Title", [new_section (nl ++ "=== Setup ===")])
  /\ preprocess html_destination (nl ++ "=== Setup ===") 0
     = Ok (nl ++ "=== Setup ===")
  /\ preprocess html_destination ("Intro" ++ nl ++ "=== Setup ===" ++ nl) 0
     = Ok ("Intro" ++ nl ++ "=== Setup ===" ++ nl).
Proof. repeat split. Qed.

(** What the heading rule does when it applies: a comment that is, as a
    whole, one or more ["="], then a non-empty text without ["="], then
    optional ["="] followed by optional white space, becomes as many ["#"]
    as there are leading ["="] and a span that wraps the text as it is; the
    identifier of the span is the text in lower case, trimmed, its spaces
    replaced by hyphens.  The cross-reference rule then runs over the
    result. *)
Theorem heading_rewrite (destination : string -> string) (k j : nat)
    (body ws : string) (section_nr : nat) :
  nonempty body = true -> has_char "=" body = false ->
  all_chars re_space ws = true -> (j = 0 -> ws = "") ->
  preprocess destination
    (repeat_str "=" (S k) ++ body ++ repeat_str "=" j ++ ws) section_nr
  = sub_crossref destination
      (repeat_str "#" (S k) ++ " <span id=" ++ dq
       ++ sanitize_section_name body ++ dq ++ " href=" ++ dq
       ++ sanitize_section_name body ++ dq ++ ">" ++ body ++ "</span>").
Proof.
  intros Hb He Hw Hj. unfold preprocess, sub_section_name.
  rewrite (match_section_name_found _ _ _ _ Hb He Hw Hj).
  unfold replace_section_name. now rewrite eq_to_hash_repeat.
Qed.

(** The comment ["=== Setup ==="] with a final newline. *)
Lemma heading_rewrite_witness :
  preprocess html_destination ("=== Setup ===" ++ nl) 0
  = Ok ("### <span id=" ++ dq ++ "setup" ++ dq ++ " href=" ++ dq ++ "setup"
        ++ dq ++ "> Setup </span>").
Proof.
  exact (heading_rewrite html_destination 2 3 " Setup " nl 0
           eq_refl eq_refl eq_refl ltac:(intros; lia)).
Defined.

(** *** Cross-references *)

Lemma replace_crossref_space (destination : string -> string)
    (g link : string) :
  replace_crossref destination g = Ok link ->
  exists l, link = String " " l.
Proof.
  unfold replace_crossref. destruct (has_char "#" g).
  - destruct (split_chr "#" g) as [|name [|anchor [|x l]]]; try discriminate.
    intros [= <-]. eauto.
  - intros [= <-]. eauto.
Qed.

Lemma replace_crossref_name (destination : string -> string) (g : string) :
  has_char "#" g = false ->
  replace_crossref destination g
  = Ok (" [" ++ g ++ "](" ++ basename (destination g) ++ ")").
Proof. intros H. unfold replace_crossref. now rewrite H. Qed.

Lemma replace_crossref_anchor (destination : string -> string)
    (name anchor : string) :
  has_char "#" name = false -> has_char "#" anchor = false ->
  replace_crossref destination (name ++ "#" ++ anchor)
  = Ok (" [" ++ name ++ "](" ++ basename (destination name) ++ "#"
        ++ anchor ++ ")").
Proof.
  intros Hn Ha. unfold replace_crossref.
  rewrite has_char_append. cbn [append has_char].
  rewrite Ascii.eqb_refl, Bool.orb_true_r.
  change (name ++ String "#" anchor) with (name ++ String "#"%char anchor).
  now rewrite split_chr_append, (split_chr_none _ _ Hn),
    (split_chr_none _ _ Ha).
Qed.

(** A reference at the start of a text: nothing up to its last bracket
    begins a match. *)
Lemma sub_crossref_at_start (destination : string -> string)
    (name rest : string) :
  has_char "[" name = false ->
  sub_crossref destination ("[[" ++ name ++ "]]" ++ rest)
  = (out <- sub_crossref destination ("]" ++ rest) ;;
     Ok ("[[" ++ name ++ "]" ++ out)).
Proof.
  intros H.
  assert (Hp : prefix "[" (name ++ "]]" ++ rest) = false).
  { destruct name as [|c name]; [reflexivity|].
    cbn [has_char] in H. apply Bool.orb_false_iff in H as [Hc _].
    change (String c name ++ "]]" ++ rest)
      with (String c (name ++ "]]" ++ rest)).
    rewrite prefix_cons. destruct (ascii_dec "[" c) as [<-|]; [|reflexivity].
    discriminate Hc. }
  change ("[[" ++ name ++ "]]" ++ rest)
    with (String "[" (String "[" (name ++ "]]" ++ rest))).
  rewrite sub_crossref_miss.
  2: { apply match_crossref_no_brackets. rewrite !prefix_cons.
       destruct (ascii_dec "[" "["); [|reflexivity]. exact Hp. }
  rewrite sub_crossref_miss.
  2: { apply match_crossref_no_brackets, prefix_bracket, Hp. }
  replace (name ++ "]]" ++ rest) with ((name ++ "]") ++ "]" ++ rest)
    by (now rewrite append_assoc).
  rewrite sub_crossref_copy.
  - destruct (sub_crossref destination ("]" ++ rest)); cbn [bind];
      [|reflexivity].
    cbn [append]. now rewrite append_assoc.
  - rewrite has_char_append, H. reflexivity.
  - reflexivity.
Qed.

(** C9.  The pattern of a cross-reference begins with one character that is
    not a backtick.  So a reference at the very start of the comment is not
    rewritten: the text is copied up to the last bracket of the reference.
    And wherever the pattern matches, the match begins one character before
    the brackets; that character is not a backtick, it is not copied, and the
    text put in place of the match begins with a space.  Where the pattern
    does not match, the character is copied and the scan moves on by one. *)
Theorem crossref_needs_preceding_character (destination : string -> string) :
  (forall name rest section_nr,
      has_char "[" name = false ->
      preprocess destination ("[[" ++ name ++ "]]" ++ rest) section_nr
      = (out <- sub_crossref destination ("]" ++ rest) ;;
         Ok ("[[" ++ name ++ "]" ++ out)))
  /\ (forall name section_nr,
         has_char "[" name = false ->
         preprocess destination ("[[" ++ name ++ "]]") section_nr
         = Ok ("[[" ++ name ++ "]]"))
  /\ (forall s g,
         match_crossref s = Some g ->
         exists c rest,
           s = String c ("[[" ++ g ++ "]]" ++ rest)
           /\ c <> "`"%char
           /\ sub_crossref destination s
              = (link <- replace_crossref destination g ;;
                 out <- sub_crossref destination rest ;;
                 Ok (link ++ out))
           /\ forall link,
               replace_crossref destination g = Ok link ->
               exists l, link = String " " l)
  /\ (forall c t,
         match_crossref (String c t) = None ->
         sub_crossref destination (String c t)
         = (out <- sub_crossref destination t ;; Ok (String c out))).
Proof.
  split; [|split; [|split; [|apply sub_crossref_miss]]].
  - intros name rest n H. unfold preprocess.
    rewrite sub_section_name_other by reflexivity.
    now apply sub_crossref_at_start.
  - intros name n H. unfold preprocess.
    rewrite sub_section_name_other by reflexivity.
    rewrite <- (append_nil_r "]]") at 1.
    rewrite (sub_crossref_at_start destination name "" H).
    reflexivity.
  - intros s g H.
    destruct (match_crossref_shape _ _ H) as (c & rest & -> & Hc & _ & _).
    exists c, rest. split; [reflexivity|]. split; [exact Hc|]. split.
    + now apply sub_crossref_hit.
    + intros link. apply replace_crossref_space.
Qed.

Lemma crossref_needs_preceding_character_witness :
  preprocess html_destination "[[helpers]] for details." 0
  = Ok "[[helpers]] for details."
  /\ preprocess html_destination "[[helpers]]" 0 = Ok "[[helpers]]"
  /\ sub_crossref html_destination "x[[helpers]] for details."
     = Ok " [helpers](helpers.html) for details.".
Proof.
  destruct (crossref_needs_preceding_character html_destination)
    as (H1 & H2 & H3 & _).
  split; [exact (H1 "helpers" " for details." 0 eq_refl)|].
  split; [exact (H2 "helpers" 0 eq_refl)|].
  destruct (H3 "x[[helpers]] for details." "helpers" eq_refl)
    as (c & rest & E & _ & Hs & _).
  injection E as <- <-. exact Hs.
Defined.


(** *** The exact condition of a match *)









End Preprocessor.

(** ** Rendering the sections *)

Module Highlighter.
Import PyStr Pycco Notions Samples PyStrFacts.

Section Facts.

Variable render_func : string -> string.
Variable destination : string -> string.

Lemma highlight_from_nth (secs : list section) (k : nat) (out : list section) :
  highlight_from render_func destination k secs = Ok out ->
  List.length out = List.length secs
  /\ forall i s,
      nth_error secs i = Some s ->
      exists pre,
        preprocess destination (text s) (k + i) = Ok pre
        /\ nth_error out i
           = Some {| text := text s; html := Some (render_func pre);
                     num := Some (k + i) |}.
Proof.
  revert k out; induction secs as [|s secs IH]; intros k out; cbn [highlight_from].
  - intros [= <-]. split; [reflexivity|]. intros [|i] s'; discriminate.
  - destruct (preprocess destination (text s) k) as [pre|e] eqn:P;
      cbn [bind]; [|discriminate].
    destruct (highlight_from render_func destination (S k) secs) as [rest|e]
      eqn:R; cbn [bind]; [|discriminate].
    intros [= <-]. destruct (IH _ _ R) as [Hlen Hnth].
    split; [simpl; now rewrite Hlen|].
    intros [|i] s' Hs; cbn [nth_error] in Hs |- *.
    + injection Hs as <-. exists pre. now rewrite Nat.add_0_r.
    + destruct (Hnth _ _ Hs) as (pre' & Hp & Hn). exists pre'.
      now rewrite Nat.add_succ_r.
Qed.

(** The number of a section plays no role in [preprocess]. *)
Lemma preprocess_section_nr (comment : string) (i j : nat) :
  preprocess destination comment i = preprocess destination comment j.
Proof. reflexivity. Qed.

Lemma highlight_from_ok (secs : list section) (k : nat) :
  (forall s, In s secs -> exists pre, preprocess destination (text s) 0 = Ok pre)
  -> exists out, highlight_from render_func destination k secs = Ok out.
Proof.
  revert k; induction secs as [|s secs IH]; intros k H; cbn [highlight_from].
  - now exists [].
  - destruct (H s (or_introl eq_refl)) as [pre Hp].
    rewrite (preprocess_section_nr _ k 0), Hp. cbn [bind].
    destruct (IH (S k) (fun s' Hs => H s' (or_intror Hs))) as [rest ->].
    cbn [bind]. eauto.
Qed.

Lemma highlight_nth (doc doc' : document) (i : nat) (s' : section) :
  highlight render_func destination doc = Ok doc' ->
  nth_error (sections doc') i = Some s' ->
  num s' = Some i /\ exists h, html s' = Some h.
Proof.
  unfold highlight.
  destruct (highlight_from render_func destination 0 (sections doc))
    as [out|e] eqn:H; cbn [bind]; [|discriminate].
  intros [= <-]. cbn [sections]. intros Hs.
  destruct (highlight_from_nth _ _ _ H) as [Hlen Hnth].
  destruct (nth_error (sections doc) i) as [s|] eqn:E.
  - destruct (Hnth _ _ E) as (pre & _ & Hn). rewrite Hn in Hs.
    injection Hs as <-. cbn. eauto.
  - apply nth_error_None in E. rewrite <- Hlen in E.
    apply nth_error_None in E. congruence.
Qed.

(** X1.  When [highlight] returns, the document has its title, its language
    and as many sections as before; the section at position [i] keeps its
    text, has the number [i], and its html is the renderer's output on the
    preprocessed text. *)
Theorem highlight_numbers_sections (doc doc' : document) :
  highlight render_func destination doc = Ok doc' ->
  title doc' = title doc /\ language doc' = language doc
  /\ List.length (sections doc') = List.length (sections doc)
  /\ forall i s,
      nth_error (sections doc) i = Some s ->
      exists pre,
        preprocess destination (text s) i = Ok pre
        /\ nth_error (sections doc') i
           = Some {| text := text s; html := Some (render_func pre);
                     num := Some i |}.
Proof.
  unfold highlight.
  destruct (highlight_from render_func destination 0 (sections doc))
    as [out|e] eqn:H; cbn [bind]; [|discriminate].
  intros [= <-]. cbn [title language sections].
  destruct (highlight_from_nth _ _ _ H) as [Hlen Hnth].
  repeat split; [exact Hlen|]. exact Hnth.
Qed.

(** X2.  [highlight] returns exactly when [preprocess] returns on the text
    of every section; one section on which it raises makes [highlight]
    raise. *)
Theorem highlight_returns_iff (doc : document) :
  (exists doc', highlight render_func destination doc = Ok doc')
  <-> forall s, In s (sections doc) ->
                exists pre, preprocess destination (text s) 0 = Ok pre.
Proof.
  split.
  - intros [doc' H]. unfold highlight in H.
    destruct (highlight_from render_func destination 0 (sections doc))
      as [out|e] eqn:E; [|discriminate].
    destruct (highlight_from_nth _ _ _ E) as [_ Hn].
    intros s Hs. apply In_nth_error in Hs as [i Hi].
    destruct (Hn _ _ Hi) as (pre & Hp & _). exists pre.
    now rewrite (preprocess_section_nr _ 0 i).
  - intros H. unfold highlight.
    destruct (highlight_from_ok (sections doc) 0 H) as [out ->].
    cbn [bind]. eauto.
Qed.

End Facts.

Lemma highlight_numbers_sections_witness :
  exists doc',
    highlight paragraph html_destination two_sections = Ok doc'
    /\ nth_error (sections doc') 0
       = Some {| text := nl ++ "See [[helpers]].";
                 html := Some (paragraph (nl ++ "See [helpers](helpers.html)."));
                 num := Some 0 |}
    /\ nth_error (sections doc') 1
       = Some {| text := nl ++ "Done."; html := Some (paragraph (nl ++ "Done."));
                 num := Some 1 |}.
Proof.
  eexists. split; [reflexivity|].
  match goal with |- nth_error (sections ?d) 0 = _ /\ _ =>
    destruct (highlight_numbers_sections paragraph html_destination
                two_sections d eq_refl) as (_ & _ & _ & H)
  end.
  split.
  - destruct (H 0 (new_section (nl ++ "See [[helpers]].")) eq_refl)
      as (pre & Hp & Hn).
    injection Hp as <-. exact Hn.
  - destruct (H 1 (new_section (nl ++ "Done.")) eq_refl) as (pre & Hp & Hn).
    injection Hp as <-. exact Hn.
Defined.

Lemma highlight_returns_iff_witness :
  exists doc', highlight paragraph html_destination two_sections = Ok doc'.
Proof.
  apply (proj2 (highlight_returns_iff paragraph html_destination two_sections)).
  intros s [<-|[<-|[]]]; eexists; reflexivity.
Defined.

End Highlighter.

(** ** From the sections to the merged document *)

Module Pipeline.
Import PyStr Pycco Notions Samples PyStrFacts.

Lemma merge_docs_nth (a b : document) (i : nat) :
  i < Nat.max (List.length (sections a)) (List.length (sections b)) ->
  nth_error (merged_sections (merge_docs a b)) i
  = Some {| m_num := i;
            source_html := get_html (nth_error (sections a) i);
            translation_html := get_html (nth_error (sections b) i) |}.
Proof.
  intros Hi. unfold merge_docs; cbn [merged_sections].
  rewrite nth_error_map, Merger.enumerate_from_nth.
  rewrite (Merger.izip_longest_nth _ _ _ Hi). reflexivity.
Qed.

(** X3.  After [highlight] on a source and on a translation, [merge_docs]
    joins the sections by their numbers: the merged section at the position
    of a section of the source carries that section's number and its html,
    and so for the translation. *)
Theorem merge_docs_joins_by_number (render_func : string -> string)
    (destination : string -> string) (a b a' b' : document) :
  highlight render_func destination a = Ok a' ->
  highlight render_func destination b = Ok b' ->
  (forall i s,
      nth_error (sections a') i = Some s ->
      exists m,
        nth_error (merged_sections (merge_docs a' b')) i = Some m
        /\ num s = Some (m_num m) /\ html s = Some (source_html m))
  /\ (forall i s,
         nth_error (sections b') i = Some s ->
         exists m,
           nth_error (merged_sections (merge_docs a' b')) i = Some m
           /\ num s = Some (m_num m) /\ html s = Some (translation_html m)).
Proof.
  intros Ha Hb. split; intros i s Hs.
  - destruct (Highlighter.highlight_nth _ _ _ _ _ _ Ha Hs) as [Hn [h Hh]].
    rewrite merge_docs_nth.
    + eexists. split; [reflexivity|]. cbn [m_num source_html].
      split; [exact Hn|]. rewrite Hs. cbn [get_html]. now rewrite Hh.
    + assert (i < List.length (sections a'))
        by (apply nth_error_Some; congruence). lia.
  - destruct (Highlighter.highlight_nth _ _ _ _ _ _ Hb Hs) as [Hn [h Hh]].
    rewrite merge_docs_nth.
    + eexists. split; [reflexivity|]. cbn [m_num translation_html].
      split; [exact Hn|]. rewrite Hs. cbn [get_html]. now rewrite Hh.
    + assert (i < List.length (sections b'))
        by (apply nth_error_Some; congruence). lia.
Qed.

Lemma merge_docs_joins_by_number_witness :
  exists a' b' m,
    highlight paragraph html_destination two_sections = Ok a'
    /\ highlight paragraph html_destination one_section = Ok b'
    /\ nth_error (merged_sections (merge_docs a' b')) 1 = Some m
    /\ m_num m = 1 /\ source_html m = paragraph (nl ++ "Done.")
    /\ translation_html m = "".
Proof.
  eexists. eexists.
  match goal with |- exists m, _ = Ok ?a /\ _ = Ok ?b /\ _ =>
    destruct (merge_docs_joins_by_number paragraph html_destination
                two_sections one_section a b eq_refl eq_refl) as [H _]
  end.
  destruct (H 1 {| text := nl ++ "Done.";
                   html := Some (paragraph (nl ++ "Done."));
                   num := Some 1 |} eq_refl) as (m & Hm & Hn & Hh).
  exists m. split; [reflexivity|]. split; [reflexivity|].
  split; [exact Hm|]. injection Hn as <-. injection Hh as <-.
  split; [reflexivity|]. split; [reflexivity|].
  cbv in Hm. now injection Hm as <-.
Defined.

Lemma izip_longest_swap {A B : Type} (l1 : list A) (l2 : list B) :
  izip_longest l2 l1 = map (fun p => (snd p, fst p)) (izip_longest l1 l2).
Proof.
  revert l2; induction l1 as [|x l1 IH]; intros l2.
  - rewrite Merger.izip_longest_nil_r. cbn [izip_longest].
    rewrite map_map. reflexivity.
  - destruct l2 as [|y l2]; cbn [izip_longest map fst snd].
    + rewrite Merger.izip_longest_nil_r, map_map. reflexivity.
    + now rewrite IH.
Qed.

Lemma enumerate_from_map {A B : Type} (f : A -> B) (k : nat) (l : list A) :
  enumerate_from k (map f l)
  = map (fun p => (fst p, f (snd p))) (enumerate_from k l).
Proof.
  revert k; induction l as [|x l IH]; intros k; [reflexivity|].
  cbn [map enumerate_from fst snd]. now rewrite IH.
Qed.

(** X4.  Exchanging the two documents exchanges the sides of the merged
    document and nothing else: the titles, the languages and, in every
    merged section, the two htmls; the numbers stay. *)
Theorem merge_docs_exchange (a b : document) :
  merge_docs b a
  = {| source_title := translation_title (merge_docs a b);
       translation_title := source_title (merge_docs a b);
       source_language := translation_language (merge_docs a b);
       translation_language := source_language (merge_docs a b);
       merged_sections :=
         map (fun m => {| m_num := m_num m;
                          source_html := translation_html m;
                          translation_html := source_html m |})
             (merged_sections (merge_docs a b)) |}.
Proof.
  unfold merge_docs. cbn [source_title translation_title source_language
    translation_language merged_sections]. f_equal.
  rewrite izip_longest_swap, enumerate_from_map, !map_map.
  apply map_ext. intros [k [x y]]. reflexivity.
Qed.

End Pipeline.

(** ** Paragraphs and blocks *)

Module Sectioning.
Import PyStr Pycco Notions Samples PyStrFacts.

Lemma paragraph_text_app (a b : list string) :
  paragraph_text (a ++ b) = paragraph_text a ++ paragraph_text b.
Proof.
  induction a as [|l a IH]; [reflexivity|].
  cbn [app paragraph_text]. rewrite IH.
  change (nl ++ l ++ paragraph_text a ++ paragraph_text b)
    with (String nl_char (l ++ paragraph_text a ++ paragraph_text b)).
  change ((nl ++ l ++ paragraph_text a) ++ paragraph_text b)
    with (String nl_char ((l ++ paragraph_text a) ++ paragraph_text b)).
  now rewrite append_assoc.
Qed.

Lemma paragraph_text_snoc (a : list string) (l : string) :
  paragraph_text (a ++ [l]) = paragraph_text a ++ nl ++ l.
Proof.
  rewrite paragraph_text_app. cbn [paragraph_text].
  now rewrite append_nil_r.
Qed.

Lemma paragraph_text_nonempty (g : list string) :
  nonempty (paragraph_text g) = nonnil g.
Proof. now destruct g. Qed.

Lemma split_blank_cons (lines : list string) :
  exists g gs, split_blank lines = g :: gs.
Proof.
  induction lines as [|l lines (g & gs & IH)]; cbn [split_blank];
    [now eexists; eexists|].
  destruct (nonempty l); [rewrite IH|]; now eexists; eexists.
Qed.

Lemma parse_lines_paragraphs (r : renderer) (lines cur : list string)
    (st : pstate) :
  Forall (fun l => is_delimiter_line r l = false) lines ->
  multi_line st = false -> chunk st = paragraph_text cur ->
  save (emitted (parse_lines r st lines)) (chunk (parse_lines r st lines))
  = (emitted st
     ++ map (fun g => new_section (paragraph_text g))
            (filter nonnil (prepend cur (split_blank lines))))%list.
Proof.
  revert cur st; induction lines as [|l lines IH]; intros cur st Hd Hm Hc.
  - cbn [parse_lines fold_left split_blank prepend filter].
    rewrite app_nil_r. unfold save. rewrite Hc, paragraph_text_nonempty.
    destruct (nonnil cur); cbn [map]; [reflexivity|now rewrite app_nil_r].
  - inversion Hd as [|? ? Hl Hd']; subst.
    cbn [parse_lines fold_left].
    change (fold_left (parse_line r) lines (parse_line r st l))
      with (parse_lines r (parse_line r st l) lines).
    rewrite (Splitter.parse_line_plain _ _ _ Hl).
    unfold plain_step. rewrite Hm. cbn [split_blank].
    destruct (nonempty l) eqn:Hn.
    + rewrite (IH (cur ++ [l])%list); [|assumption|reflexivity|].
      2: { cbn [chunk]. now rewrite Hc, paragraph_text_snoc. }
      cbn [emitted].
      destruct (split_blank_cons lines) as (g & gs & ->).
      cbn [prepend]. now rewrite <- app_assoc.
    + rewrite (IH []); [|assumption|reflexivity|reflexivity].
      cbn [emitted]. destruct (split_blank_cons lines) as (g & gs & E).
      rewrite E. cbn [prepend app filter]. rewrite app_nil_r.
      unfold save. rewrite Hc, paragraph_text_nonempty.
      destruct (nonnil cur); cbn [map].
      * now rewrite <- app_assoc.
      * reflexivity.
Qed.

Lemma no_delimiters_no_delimiter_line (r : renderer) (lines : list string) :
  block_delimiters r = None ->
  Forall (fun l => is_delimiter_line r l = false) lines.
Proof.
  intros H. apply Forall_forall. intros l _.
  unfold is_delimiter_line. now rewrite H.
Qed.

(** X5.  When the renderer has no pair of block delimiters, or no line
    after the title is a delimiter line, the sections are the paragraphs of
    the text: one section for each run of non-empty lines between empty
    lines, in order, its text made of the lines of the run, each behind a
    newline. *)
Theorem sections_are_paragraphs (r : renderer) (txt ttl : string)
    (body : list string) :
  drop_shebang (split_chr nl_char txt) = ttl :: body ->
  block_delimiters r = None
  \/ Forall (fun l => is_delimiter_line r l = false) body ->
  split_text r txt
  = Ok (ttl, map (fun g => new_section (paragraph_text g)) (paragraphs body)).
Proof.
  intros Hb Hd. unfold split_text. rewrite Hb.
  assert (Hd' : Forall (fun l => is_delimiter_line r l = false) body).
  { destruct Hd as [Hd|Hd];
      [now apply no_delimiters_no_delimiter_line | exact Hd]. }
  rewrite (parse_lines_paragraphs r body [] init_state Hd' eq_refl eq_refl).
  cbn [emitted init_state app]. unfold paragraphs.
  destruct (split_blank_cons body) as (g & gs & ->). reflexivity.
Qed.

Lemma sections_are_paragraphs_witness :
  split_text default_renderer
    ("Title" ++ nl ++ "one" ++ nl ++ "two" ++ nl ++ nl ++ nl ++ "three" ++ nl)
  = Ok ("Title", [new_section (nl ++ "one" ++ nl ++ "two");
                  new_section (nl ++ "three")]).
Proof.
  apply (sections_are_paragraphs default_renderer
           ("Title" ++ nl ++ "one" ++ nl ++ "two" ++ nl ++ nl ++ nl ++ "three"
            ++ nl)
           "Title" ["one"; "two"; ""; ""; "three"; ""] eq_refl).
  right. repeat constructor.
Defined.

(** *** A block between two delimiter lines *)

Lemma parse_lines_cons (r : renderer) (st : pstate) (l : string)
    (lines : list string) :
  parse_lines r st (l :: lines) = parse_lines r (parse_line r st l) lines.
Proof. reflexivity. Qed.

Lemma parse_lines_app (r : renderer) (st : pstate) (a b : list string) :
  parse_lines r st (a ++ b) = parse_lines r (parse_lines r st a) b.
Proof. apply fold_left_app. Qed.

Lemma parse_lines_in_block (r : renderer) (inner : list string) (st : pstate) :
  multi_line st = true ->
  Forall (fun l => is_delimiter_line r l = false) inner ->
  parse_lines r st inner
  = {| chunk := chunk st ++ paragraph_text inner; multi_line := true;
       emitted := emitted st |}.
Proof.
  revert st; induction inner as [|l inner IH]; intros st Hm Hd.
  - destruct st as [c m e]. cbn in Hm |- *. subst m.
    now rewrite append_nil_r.
  - inversion Hd as [|? ? Hl Hd']; subst.
    rewrite parse_lines_cons, (Splitter.parse_line_plain _ _ _ Hl).
    unfold plain_step. rewrite Hm.
    rewrite IH by (cbn; auto). cbn [chunk emitted paragraph_text].
    f_equal. rewrite append_assoc. reflexivity.
Qed.

(** X6.  A block is kept whole: a delimiter line that opens a block, lines
    that are not delimiter lines (empty lines among them), and the next
    delimiter line give exactly one section, made of these lines joined by
    newlines; what was in the buffer before is saved as a section of its
    own, and the flag is off and the buffer empty afterwards. *)
Theorem block_is_one_section (r : renderer) (ms me : string) (st : pstate)
    (opener closer : string) (inner : list string) :
  block_delimiters r = Some (ms, me) ->
  multi_line st = false ->
  is_delimiter_line r opener = true ->
  endswith me (strip opener)
  && Nat.ltb (String.length me) (String.length (strip opener)) = false ->
  Forall (fun l => is_delimiter_line r l = false) inner ->
  is_delimiter_line r closer = true ->
  parse_lines r st (opener :: inner ++ [closer])
  = {| chunk := ""; multi_line := false;
       emitted :=
         (save (emitted st) (chunk st)
          ++ [new_section
                (strip_delimiters r ms me opener ++ paragraph_text inner
                 ++ nl ++ strip_delimiters r ms me closer)])%list |}.
Proof.
  intros Hd Hm Ho Hself Hi Hc.
  rewrite parse_lines_cons, parse_lines_app.
  rewrite (Splitter.parse_line_delimiter _ _ _ _ _ Hd Ho).
  assert (M : multi_line (delimiter_step r ms me st opener) = true).
  { unfold delimiter_step; cbn [multi_line]. rewrite Hm. cbn [negb andb].
    now rewrite Hself. }
  rewrite (Splitter.delimiter_step_on _ _ _ _ _ M).
  rewrite (parse_lines_in_block r inner
             {| chunk := strip_delimiters r ms me opener; multi_line := true;
                emitted := save (emitted st) (chunk st) |} eq_refl Hi).
  cbn [chunk emitted parse_lines fold_left].
  rewrite (Splitter.parse_line_delimiter _ _ _ _ _ Hd Hc).
  rewrite Splitter.delimiter_step_off by reflexivity.
  cbn [chunk emitted]. now rewrite append_assoc.
Qed.

Lemma block_is_one_section_witness :
  parse_lines default_renderer (parse_line default_renderer init_state "intro")
    ["```python"; "x = 1"; ""; "y = 2"; "```"]
  = {| chunk := ""; multi_line := false;
       emitted :=
         [new_section (nl ++ "intro");
          new_section ("```python" ++ nl ++ "x = 1" ++ nl ++ nl ++ "y = 2"
                       ++ nl ++ "```")] |}.
Proof.
  exact (block_is_one_section default_renderer "```" "```"
           (parse_line default_renderer init_state "intro")
           "```python" "```" ["x = 1"; ""; "y = 2"]
           eq_refl eq_refl eq_refl eq_refl
           ltac:(repeat constructor) eq_refl).
Defined.

(** *** The interpreter line *)

Lemma first_piece_shebang (s h : string) (t : list string) :
  split_chr nl_char s = h :: t -> prefix "#!" h = prefix "#!" s.
Proof.
  destruct s as [|c s]; cbn [split_chr]; [now intros [= <- <-]|].
  destruct (Ascii.eqb c nl_char) eqn:C.
  - apply Ascii.eqb_eq in C. subst c. now intros [= <- <-].
  - destruct (split_chr_cons nl_char s) as (h' & t' & E). rewrite E.
    intros [= <- <-]. rewrite !prefix_cons.
    destruct (ascii_dec "#" c); [|reflexivity].
    destruct s as [|d s]; cbn [split_chr] in E; [now injection E as <- <-|].
    destruct (Ascii.eqb d nl_char) eqn:D.
    + apply Ascii.eqb_eq in D. subst d. now injection E as <- <-.
    + destruct (split_chr_cons nl_char s) as (h'' & t'' & E'). rewrite E' in E.
      injection E as <- <-. rewrite !prefix_cons.
      destruct (ascii_dec "!" d); [|reflexivity].
      now rewrite !prefix_nil_l.
Qed.

(** X7.  An interpreter line in front of a text is dropped: the text with
    the line splits as the text without it does, as long as the text does
    not begin with a second interpreter line. *)
Theorem shebang_line_dropped (r : renderer) (line rest : string) :
  has_char nl_char line = false ->
  startswith "#!" rest = false ->
  split_text r ("#!" ++ line ++ nl ++ rest) = split_text r rest.
Proof.
  intros Hl Hr. unfold split_text.
  replace ("#!" ++ line ++ nl ++ rest)
    with (("#!" ++ line) ++ String nl_char rest)
    by (now rewrite append_assoc).
  rewrite split_chr_append, (split_chr_none nl_char ("#!" ++ line)) by exact Hl.
  cbn [app drop_shebang]. unfold startswith at 1.
  rewrite (prefix_append "#!" line).
  destruct (split_chr_cons nl_char rest) as (h & t & E). rewrite E.
  cbn [drop_shebang]. unfold startswith in Hr |- *.
  now rewrite (first_piece_shebang _ _ _ E), Hr.
Qed.

Lemma shebang_line_dropped_witness :
  split_text default_renderer
    ("#!/usr/bin/env python" ++ nl ++ "Title" ++ nl ++ "body")
  = split_text default_renderer ("Title" ++ nl ++ "body").
Proof.
  exact (shebang_line_dropped default_renderer "/usr/bin/env python"
           ("Title" ++ nl ++ "body") eq_refl eq_refl).
Defined.

(** *** How a section begins *)

Lemma prefix_refl (p : string) : prefix p p = true.
Proof. rewrite <- (append_nil_r p) at 2. apply prefix_append. Qed.

Lemma prefix_append_r (p t x : string) :
  prefix p t = true -> prefix p (t ++ x) = true.
Proof.
  intros H. destruct (prefix_split _ _ H) as [q ->].
  rewrite append_assoc. apply prefix_append.
Qed.

Section Beginnings.

Variable r : renderer.
Variable body : list string.

Lemma good_grows (c line : string) :
  c = "" \/ begins_as_section r body c ->
  begins_as_section r body (c ++ nl ++ line).
Proof.
  intros [->|[H|(l & Hin & Hd & H)]].
  - left. exact (prefix_append nl line).
  - left. now apply prefix_append_r.
  - right. exists l. repeat split; try assumption.
    now apply prefix_append_r.
Qed.

Lemma good_saved (secs : list section) (c : string) :
  Forall (fun s => begins_as_section r body (text s)) secs ->
  c = "" \/ begins_as_section r body c ->
  Forall (fun s => begins_as_section r body (text s)) (save secs c).
Proof.
  intros Hs Hc. unfold save. destruct (nonempty c) eqn:N; [|exact Hs].
  apply Forall_app. split; [exact Hs|]. constructor; [|constructor].
  destruct Hc as [->|Hc]; [discriminate|exact Hc].
Qed.

Lemma parse_line_beginnings (st : pstate) (line : string) :
  In line body -> beginnings_kept r body st ->
  beginnings_kept r body (parse_line r st line).
Proof.
  intros Hin [He Hc].
  assert (Hplain : beginnings_kept r body (plain_step st line)).
  { unfold plain_step, beginnings_kept.
    destruct (multi_line st); [|destruct (nonempty line)];
      cbn [emitted chunk].
    - split; [exact He|]. right. now apply good_grows.
    - split; [exact He|]. right. now apply good_grows.
    - split; [now apply good_saved|]. now left. }
  unfold parse_line.
  destruct (block_delimiters r) as [[ms me]|] eqn:Hd; [|exact Hplain].
  destruct (touches ms line || touches me line) eqn:Ht; [|exact Hplain].
  destruct (multi_line (delimiter_step r ms me st line)) eqn:M.
  - rewrite (Splitter.delimiter_step_on _ _ _ _ _ M).
    split; cbn [emitted chunk]; [now apply good_saved|].
    right. right. exists line. split; [exact Hin|]. split.
    + unfold is_delimiter_line. now rewrite Hd.
    + unfold entering_line. rewrite Hd, Ht. apply prefix_refl.
  - rewrite (Splitter.delimiter_step_off _ _ _ _ _ M).
    split; cbn [emitted chunk]; [|now left].
    apply Forall_app. split; [exact He|]. constructor; [|constructor].
    cbn [text new_section]. now apply good_grows.
Qed.

Lemma parse_lines_beginnings (lines : list string) (st : pstate) :
  (forall l, In l lines -> In l body) ->
  beginnings_kept r body st ->
  beginnings_kept r body (parse_lines r st lines).
Proof.
  revert st; induction lines as [|l lines IH]; intros st Hsub H; [exact H|].
  rewrite parse_lines_cons. apply IH.
  - intros l' Hl'. apply Hsub. now right.
  - apply parse_line_beginnings; [|exact H]. apply Hsub. now left.
Qed.

End Beginnings.

(** X8.  The text of every section begins with a newline, unless the
    section was begun by a delimiter line that opened a block, and then it
    begins with that line as it entered the buffer.  On a section that
    begins with a newline the heading rule of [preprocess] does nothing:
    only the cross-reference rule applies. *)
Theorem sections_begin_with_newline_or_block (r : renderer)
    (txt ttl : string) (secs : list section) :
  split_text r txt = Ok (ttl, secs) ->
  exists body,
    drop_shebang (split_chr nl_char txt) = ttl :: body
    /\ forall s,
        In s secs ->
        begins_as_section r body (text s)
        /\ (prefix nl (text s) = true ->
            forall destination section_nr,
              preprocess destination (text s) section_nr
              = sub_crossref destination (text s)).
Proof.
  unfold split_text.
  destruct (drop_shebang (split_chr nl_char txt)) as [|t body];
    [discriminate|].
  intros [= <- <-]. exists body. split; [reflexivity|].
  intros s Hs. split.
  - destruct (parse_lines_beginnings r body body init_state (fun l H => H))
      as [He Hc].
    { split; [constructor | now left]. }
    pose proof (good_saved r body _ _ He Hc) as H.
    rewrite Forall_forall in H. now apply H.
  - intros Hp destination n. unfold preprocess.
    rewrite Preprocessor.sub_section_name_other; [reflexivity|].
    destruct (text s) as [|c t']; [discriminate|].
    unfold nl in Hp. rewrite prefix_cons in Hp |- *.
    destruct (ascii_dec nl_char c) as [<-|]; [reflexivity|discriminate].
Qed.

Lemma sections_begin_with_newline_or_block_witness :
  begins_as_section default_renderer ["=== Setup ==="] (nl ++ "=== Setup ===")
  /\ preprocess html_destination (nl ++ "=== Setup ===") 0
     = sub_crossref html_destination (nl ++ "=== Setup ===").
Proof.
  destruct (sections_begin_with_newline_or_block default_renderer
              ("Title" ++ nl ++ "=== Setup ===") "Title"
              [new_section (nl ++ "=== Setup ===")] eq_refl)
    as (body & Hb & H).
  injection Hb as <-.
  destruct (H (new_section (nl ++ "=== Setup ===")) (or_introl eq_refl))
    as [H1 H2].
  split; [exact H1 | exact (H2 eq_refl html_destination 0)].
Defined.

End Sectioning.

(** ** The language and the file name *)

Module FileNames.
Import PyStr Pycco Notions Samples PyStrFacts.

Lemma match_stem_no_dot (s : string) :
  has_char "." s = false -> match_stem s = None.
Proof.
  induction s as [|c s IH]; [reflexivity|]. cbn [has_char match_stem].
  intros H. apply Bool.orb_false_iff in H as [Hc Hs].
  destruct (Ascii.eqb c nl_char); [reflexivity|].
  rewrite (IH Hs), Hc. now destruct s.
Qed.

Lemma match_stem_final_dot (name : string) :
  has_char "." name = false -> match_stem (name ++ ".") = None.
Proof.
  induction name as [|c name IH]; [reflexivity|].
  cbn [has_char append match_stem].
  intros H. apply Bool.orb_false_iff in H as [Hc Hs].
  destruct (Ascii.eqb c nl_char); [reflexivity|].
  rewrite (IH Hs), Hc. now destruct (name ++ ".").
Qed.

Lemma match_stem_cons (c : ascii) (t : string) :
  match_stem (String c t)
  = if Ascii.eqb c nl_char then None
    else match match_stem t with
         | Some g => Some (String c g)
         | None =>
             match t with
             | String d _ =>
                 if Ascii.eqb c "." && negb (Ascii.eqb d nl_char)
                 then Some "" else None
             | "" => None
             end
         end.
Proof. reflexivity. Qed.

Lemma match_stem_extension (name ext : string) :
  has_char nl_char name = false ->
  nonempty ext = true -> has_char "." ext = false ->
  has_char nl_char ext = false ->
  match_stem (name ++ "." ++ ext) = Some name.
Proof.
  intros Hn He Hd Hl. induction name as [|c name IH].
  - destruct ext as [|d ext]; [discriminate|].
    cbn [has_char] in Hl. apply Bool.orb_false_iff in Hl as [Hl _].
    change ("" ++ "." ++ String d ext) with (String "." (String d ext)).
    rewrite match_stem_cons, (match_stem_no_dot _ Hd), Hl. reflexivity.
  - cbn [has_char] in Hn. apply Bool.orb_false_iff in Hn as [Hc Hn].
    change (String c name ++ "." ++ ext) with (String c (name ++ "." ++ ext)).
    now rewrite match_stem_cons, Hc, (IH Hn).
Qed.

(** X9.  For a file whose basename is [name.ext], the extension free of
    dots, the language is what [Locale.parse] makes of [name]: its
    language, its exception, or the error of [get_language] when it returns
    a false value.  Neither the directory nor the text plays a role. *)
Theorem language_of_named_file
    (Locale_parse : string -> result (option string))
    (source code name ext : string) :
  basename source = name ++ "." ++ ext ->
  has_char nl_char name = false ->
  nonempty ext = true -> has_char "." ext = false ->
  has_char nl_char ext = false ->
  get_language Locale_parse source code None
  = (locale <- Locale_parse name ;;
     match locale with
     | Some lang => Ok lang
     | None => Raise (ValueError "Can't figure out the language!")
     end).
Proof.
  intros Hb Hn He Hd Hl. unfold get_language.
  now rewrite Hb, (match_stem_extension _ _ Hn He Hd Hl).
Qed.

Lemma language_of_named_file_witness :
  get_language two_locales "docs/guide/de_DE.md" "" None = Ok "de".
Proof.
  exact (language_of_named_file two_locales "docs/guide/de_DE.md" ""
           "de_DE" "md" eq_refl eq_refl eq_refl eq_refl eq_refl).
Defined.

(** X10.  A file whose basename has no dot, or has its only dot at the
    end, has no language: without a forced language [get_language] raises
    [ValueError] and [Locale.parse] is not asked. *)
Theorem language_needs_extension
    (Locale_parse : string -> result (option string))
    (source code : string) :
  has_char "." (basename source) = false
  \/ (exists name, basename source = name ++ "."
                   /\ has_char "." name = false) ->
  get_language Locale_parse source code None
  = Raise (ValueError "Can't figure out the language!").
Proof.
  intros H. unfold get_language.
  assert (E : match_stem (basename source) = None).
  { destruct H as [H|(name & -> & H)];
      [now apply match_stem_no_dot | now apply match_stem_final_dot]. }
  now rewrite E.
Qed.

Lemma language_needs_extension_witness :
  get_language two_locales "docs/en" "" None
  = Raise (ValueError "Can't figure out the language!")
  /\ get_language two_locales "docs/en." "" None
     = Raise (ValueError "Can't figure out the language!").
Proof.
  split.
  - apply (language_needs_extension two_locales "docs/en" ""). now left.
  - apply (language_needs_extension two_locales "docs/en." ""). right.
    exists "en". now split.
Defined.

End FileNames.

(** ** More on the comment preprocessor *)

Module References.
Import PyStr Pycco Notions Samples PyStrFacts.

Section Facts.

Variable destination : string -> string.

Lemma contains_tail (sub : string) (c : ascii) (t : string) :
  contains sub (String c t) = false -> contains sub t = false.
Proof. cbn [contains]. intros H. now apply Bool.orb_false_iff in H. Qed.

Lemma contains_prefix (sub s : string) :
  contains sub s = false -> prefix sub s = false.
Proof. destruct s; cbn [contains]; intros H; now apply Bool.orb_false_iff in H. Qed.

Lemma sub_crossref_no_brackets (s : string) :
  contains "[[" s = false -> sub_crossref destination s = Ok s.
Proof.
  induction s as [|c s IH]; [reflexivity|]. intros H.
  pose proof (contains_tail _ _ _ H) as Ht.
  rewrite Preprocessor.sub_crossref_miss.
  - now rewrite (IH Ht).
  - now apply Preprocessor.match_crossref_no_brackets, contains_prefix.
Qed.

(** X11.  A comment that does not begin with ["="] and has no ["[["] comes
    out of [preprocess] as it went in. *)
Theorem preprocess_plain_text (comment : string) (section_nr : nat) :
  prefix "=" comment = false -> contains "[[" comment = false ->
  preprocess destination comment section_nr = Ok comment.
Proof.
  intros He Hb. unfold preprocess.
  rewrite Preprocessor.sub_section_name_other by exact He.
  now apply sub_crossref_no_brackets.
Qed.

Lemma replace_crossref_two_hashes (a b d : string) :
  has_char "#" a = false -> has_char "#" b = false ->
  replace_crossref destination (a ++ "#" ++ b ++ "#" ++ d)
  = Raise (ValueError "too many values to unpack").
Proof.
  intros Ha Hb. unfold replace_crossref.
  rewrite Preprocessor.has_char_append. cbn [append has_char].
  rewrite Ascii.eqb_refl, Bool.orb_true_r.
  change (a ++ String "#" (b ++ String "#" d))
    with (a ++ String "#"%char (b ++ String "#"%char d)).
  rewrite !split_chr_append, (split_chr_none _ _ Ha), (split_chr_none _ _ Hb).
  destruct (split_chr_cons "#" d) as (h & t & ->). reflexivity.
Qed.

(** X12.  A reference with two or more ["#"] makes [preprocess] raise
    [ValueError]: the name and the anchor cannot be told apart. *)
Theorem preprocess_two_anchors_raises (pre : string) (c : ascii)
    (a b d post : string) (section_nr : nat) :
  prefix "=" (pre ++ String c "") = false ->
  has_char "[" pre = false ->
  Ascii.eqb c "[" = false -> Ascii.eqb c "`" = false ->
  has_char "#" a = false -> has_char "#" b = false ->
  has_char "]" (a ++ "#" ++ b ++ "#" ++ d) = false ->
  has_char nl_char (a ++ "#" ++ b ++ "#" ++ d) = false ->
  preprocess destination
    (pre ++ String c ("[[" ++ (a ++ "#" ++ b ++ "#" ++ d) ++ "]]" ++ post))
    section_nr
  = Raise (ValueError "too many values to unpack").
Proof.
  intros He Hpre Hc1 Hc2 Ha Hb Hbr Hnl. unfold preprocess.
  rewrite Preprocessor.sub_section_name_other.
  2: { destruct pre as [|x pre]; [exact He|].
       cbn [append] in He |- *. rewrite prefix_cons in He |- *.
       destruct (ascii_dec "=" x); [|reflexivity].
       now rewrite prefix_nil_l in He |- *. }
  rewrite Preprocessor.sub_crossref_copy; [|exact Hpre|].
  2: { rewrite prefix_cons. destruct (ascii_dec "[" c) as [<-|]; [|reflexivity].
       discriminate Hc1. }
  rewrite Preprocessor.sub_crossref_hit.
  2: { apply Preprocessor.match_crossref_found; try assumption.
       - intros ->. discriminate Hc2.
       - destruct a; reflexivity. }
  now rewrite (replace_crossref_two_hashes _ _ _ Ha Hb).
Qed.

End Facts.

Lemma preprocess_plain_text_witness :
  preprocess html_destination "A [link](x.html) and a[0] = b." 0
  = Ok "A [link](x.html) and a[0] = b.".
Proof.
  exact (preprocess_plain_text html_destination
           "A [link](x.html) and a[0] = b." 0 eq_refl eq_refl).
Defined.

Lemma preprocess_two_anchors_raises_witness :
  preprocess html_destination "See [[main.py#a#b]] there." 0
  = Raise (ValueError "too many values to unpack").
Proof.
  exact (preprocess_two_anchors_raises html_destination "See" " "%char
           "main.py" "a" "b" " there." 0
           eq_refl eq_refl eq_refl eq_refl eq_refl eq_refl eq_refl eq_refl).
Defined.

(** *** Characters that the string operations do not bring in *)

Lemma has_char_lstrip (c : ascii) (s : string) :
  has_char c s = false -> has_char c (lstrip s) = false.
Proof.
  induction s as [|d s IH]; [reflexivity|]. intros H. cbn [lstrip].
  destruct (isspace d); [|exact H].
  cbn [has_char] in H. apply Bool.orb_false_iff in H as [_ H]. now apply IH.
Qed.

Lemma has_char_rstrip (c : ascii) (s : string) :
  has_char c s = false -> has_char c (rstrip s) = false.
Proof.
  induction s as [|d s IH]; [reflexivity|]. intros H.
  cbn [has_char] in H. apply Bool.orb_false_iff in H as [Hd H].
  specialize (IH H). cbn [rstrip].
  destruct (rstrip s) as [|e r].
  - destruct (isspace d); [reflexivity|]. cbn [has_char].
    now rewrite Hd.
  - cbn [has_char] in IH |- *. now rewrite Hd, IH.
Qed.

Lemma lower_char_hash (x : ascii) :
  Ascii.eqb x "#" = false -> Ascii.eqb (lower_char x) "#" = false.
Proof.
  destruct x as [[] [] [] [] [] [] [] []]; intros H;
    solve [reflexivity | discriminate H].
Qed.

Lemma has_char_lower_hash (s : string) :
  has_char "#" s = false -> has_char "#" (lower s) = false.
Proof.
  induction s as [|d s IH]; [reflexivity|]. cbn [has_char lower].
  intros H. apply Bool.orb_false_iff in H as [Hd H].
  now rewrite (lower_char_hash _ Hd), (IH H).
Qed.

Lemma has_char_split (c sep : ascii) (s : string) :
  has_char c s = false ->
  Forall (fun l => has_char c l = false) (split_chr sep s).
Proof.
  induction s as [|d s IH]; [now repeat constructor|].
  cbn [has_char split_chr]. intros H.
  apply Bool.orb_false_iff in H as [Hd H]. specialize (IH H).
  destruct (Ascii.eqb d sep); [now constructor|].
  destruct (split_chr sep s) as [|h r];
    [repeat constructor; cbn [has_char]; now rewrite Hd|].
  inversion IH; subst. constructor; [|assumption].
  cbn [has_char]. now rewrite Hd.
Qed.

Lemma has_char_join (c : ascii) (sep : string) (l : list string) :
  has_char c sep = false ->
  Forall (fun x => has_char c x = false) l ->
  has_char c (join sep l) = false.
Proof.
  intros Hs H. unfold join. induction H as [|x l Hx Hl IH]; [reflexivity|].
  cbn [String.concat]. destruct l as [|y l]; [exact Hx|].
  now rewrite !Preprocessor.has_char_append, Hx, Hs, IH.
Qed.

(** X14.  The identifier that [sanitize_section_name] makes has no space,
    whatever the name: every space left after trimming has become a
    hyphen. *)
Theorem sanitize_section_name_no_space (name : string) :
  has_char " " (sanitize_section_name name) = false.
Proof.
  unfold sanitize_section_name.
  apply has_char_join; [reflexivity|]. apply split_chr_pieces.
Qed.

Lemma sanitize_section_name_hash (name : string) :
  has_char "#" name = false ->
  has_char "#" (sanitize_section_name name) = false.
Proof.
  intros H. unfold sanitize_section_name, strip.
  apply has_char_join; [reflexivity|]. apply has_char_split.
  now apply has_char_lstrip, has_char_rstrip, has_char_lower_hash.
Qed.

(** *** When [preprocess] returns *)

Section Returns.

Variable destination : string -> string.

Lemma has_char_reference (ch : ascii) (g rest : string) :
  has_char ch ("[[" ++ g ++ "]]" ++ rest) = false ->
  has_char ch g = false /\ has_char ch rest = false.
Proof.
  rewrite !Preprocessor.has_char_append. intros H.
  apply Bool.orb_false_iff in H as [_ H].
  apply Bool.orb_false_iff in H as [Hg H].
  apply Bool.orb_false_iff in H as [_ Hr]. now split.
Qed.

Lemma sub_crossref_returns_bounded (n : nat) (s : string) :
  String.length s <= n -> has_char "#" s = false ->
  exists out, sub_crossref destination s = Ok out.
Proof.
  revert s; induction n as [|n IH]; intros s Hn Hs.
  - destruct s; [now exists "" | simpl in Hn; lia].
  - destruct s as [|c t]; [now exists ""|].
    destruct (match_crossref (String c t)) as [g|] eqn:M.
    + destruct (Preprocessor.match_crossref_shape _ _ M)
        as (c' & rest & E & _).
      rewrite E in Hs, Hn, M |- *.
      cbn [has_char] in Hs. apply Bool.orb_false_iff in Hs as [_ Hs].
      destruct (has_char_reference _ _ _ Hs) as [Hg Hr].
      rewrite (Preprocessor.sub_crossref_hit _ _ _ _ M).
      rewrite (Preprocessor.replace_crossref_name _ _ Hg). cbn [bind].
      destruct (IH rest) as [out ->]; [|exact Hr|cbn [bind]; eauto].
      cbn [String.length] in Hn. rewrite !length_append in Hn.
      simpl in Hn. lia.
    + rewrite (Preprocessor.sub_crossref_miss _ _ _ M).
      cbn [has_char] in Hs. apply Bool.orb_false_iff in Hs as [_ Hs].
      destruct (IH t) as [out ->]; [simpl in Hn; lia|exact Hs|].
      cbn [bind]. eauto.
Qed.

Lemma sub_crossref_returns_heading (k : nat) (t : string) :
  has_char "#" t = false ->
  exists out, sub_crossref destination (repeat_str "#" k ++ t) = Ok out.
Proof.
  intros Ht. induction k as [|k IH].
  - apply (sub_crossref_returns_bounded (String.length t));
      [apply Nat.le_refl|exact Ht].
  - change (repeat_str "#" (S k) ++ t)
      with (String "#" (repeat_str "#" k ++ t)).
    destruct (match_crossref (String "#" (repeat_str "#" k ++ t)))
      as [g|] eqn:M.
    + destruct (Preprocessor.match_crossref_shape _ _ M)
        as (c' & rest & E & _).
      destruct k as [|k]; [|discriminate E].
      change (repeat_str "#" 0 ++ t) with t in E, M |- *.
      injection E as <- E. subst t.
      destruct (has_char_reference _ _ _ Ht) as [Hg Hr].
      rewrite (Preprocessor.sub_crossref_hit _ _ _ _ M).
      rewrite (Preprocessor.replace_crossref_name _ _ Hg). cbn [bind].
      destruct (sub_crossref_returns_bounded (String.length rest) rest)
        as [out ->]; [lia|exact Hr|]. cbn [bind]. eauto.
    + rewrite (Preprocessor.sub_crossref_miss _ _ _ M).
      destruct IH as [out ->]. cbn [bind]. eauto.
Qed.

Lemma eq_to_hash_run (g : string) :
  all_chars is_eq g = true -> eq_to_hash g = repeat_str "#" (String.length g).
Proof.
  induction g as [|c g IH]; [reflexivity|]. cbn [all_chars].
  intros H. apply Bool.andb_true_iff in H as [Hc Hg].
  cbn [eq_to_hash String.length repeat_str append].
  unfold is_eq in Hc. now rewrite Hc, (IH Hg).
Qed.

(** X13.  [preprocess] raises for no comment without ["#"]: the only
    exception it has of its own comes from the anchor of a reference. *)
Theorem preprocess_returns_without_hash (comment : string)
    (section_nr : nat) :
  has_char "#" comment = false ->
  exists out, preprocess destination comment section_nr = Ok out.
Proof.
  intros H. unfold preprocess, sub_section_name.
  destruct (match_section_name comment) as [[g1 g2]|] eqn:M.
  - destruct (Preprocessor.match_section_name_shape _ _ _ M)
      as (eqs & ws & E & _ & H1 & _ & _ & _ & _).
    subst comment. rewrite !Preprocessor.has_char_append in H.
    apply Bool.orb_false_iff in H as [_ H].
    apply Bool.orb_false_iff in H as [H2 _].
    unfold replace_section_name. rewrite (eq_to_hash_run _ H1).
    apply sub_crossref_returns_heading.
    rewrite !Preprocessor.has_char_append.
    now rewrite (sanitize_section_name_hash _ H2), H2.
  - apply (sub_crossref_returns_bounded (String.length comment));
      [lia|exact H].
Qed.

End Returns.

Lemma preprocess_returns_without_hash_witness :
  exists out,
    preprocess html_destination "== To [[do]] ==" 0 = Ok out.
Proof.
  exact (preprocess_returns_without_hash html_destination
           "== To [[do]] ==" 0 eq_refl).
Defined.

End References.

(** ** Output paths *)

Module Destinations.
Import PyStr Pycco Notions Samples PyStrFacts.

Lemma last_cons_cons {A : Type} (x y : A) (l : list A) (d : A) :
  last (x :: y :: l) d = last (y :: l) d.
Proof. reflexivity. Qed.

Lemma last_app_cons {A : Type} (a : list A) (x : A) (l : list A) (d : A) :
  last (a ++ x :: l) d = last (x :: l) d.
Proof.
  induction a as [|y a IH]; [reflexivity|].
  cbn [app]. destruct (a ++ x :: l)%list eqn:E.
  - now destruct a.
  - rewrite last_cons_cons. exact IH.
Qed.

Lemma basename_after_slash (a b : string) :
  basename (a ++ String "/" b) = basename b.
Proof.
  unfold basename. rewrite split_chr_append.
  destruct (split_chr_cons "/" b) as (h & r & ->). apply last_app_cons.
Qed.

Lemma basename_plain (s : string) :
  has_char "/" s = false -> basename s = s.
Proof. intros H. unfold basename. now rewrite (split_chr_none _ _ H). Qed.

Lemma basename_no_slash (p : string) : has_char "/" (basename p) = false.
Proof.
  unfold basename. pose proof (split_chr_pieces "/" p) as H.
  induction (split_chr "/" p) as [|x l IH]; [reflexivity|].
  inversion H; subst. destruct l as [|y l]; [assumption|].
  rewrite last_cons_cons. now apply IH.
Qed.

Lemma endswith_split (p s : string) :
  endswith p s = true -> exists q, s = q ++ p.
Proof.
  induction s as [|c s IH]; cbn [endswith].
  - rewrite Bool.orb_false_r. intros H. apply String.eqb_eq in H.
    subst p. now exists "".
  - intros H. apply Bool.orb_true_iff in H as [H|H].
    + apply String.eqb_eq in H. subst p. now exists "".
    + destruct (IH H) as [q ->]. now exists (String c q).
Qed.

Lemma basename_path_join (a b : string) :
  basename (path_join a b) = basename b.
Proof.
  unfold path_join. destruct (startswith "/" b); [reflexivity|].
  destruct a as [|c a]; [reflexivity|]. cbn [nonempty negb orb].
  destruct (endswith "/" (String c a)) eqn:E.
  - destruct (endswith_split _ _ E) as [q ->].
    rewrite append_assoc. apply basename_after_slash.
  - apply (basename_after_slash (String c a) b).
Qed.

(** The second component of [posixpath.split] is the basename. *)
Lemma rfind_split_no_slash (t : string) :
  has_char "/" t = false -> rfind_split t = ("", t).
Proof.
  induction t as [|c t IH]; [reflexivity|]. cbn [has_char rfind_split].
  intros H. apply Bool.orb_false_iff in H as [Hc Ht].
  now rewrite (IH Ht), Hc.
Qed.

Lemma rfind_split_slash (t : string) :
  has_char "/" t = true -> nonempty (fst (rfind_split t)) = true.
Proof.
  induction t as [|c t IH]; [discriminate|]. cbn [has_char rfind_split].
  destruct (rfind_split t) as [h tl]. cbn [fst] in IH.
  destruct (nonempty h) eqn:N; [reflexivity|].
  destruct (Ascii.eqb c "/"); [reflexivity|]. cbn [orb]. exact IH.
Qed.

Lemma rfind_split_basename (p : string) : snd (rfind_split p) = basename p.
Proof.
  induction p as [|c p IH]; [reflexivity|]. cbn [rfind_split].
  destruct (has_char "/" p) eqn:S.
  - pose proof (rfind_split_slash _ S) as N.
    destruct (rfind_split p) as [h tl]. cbn [fst snd] in N, IH.
    rewrite N. cbn [snd]. rewrite IH. unfold basename. cbn [split_chr].
    destruct (Splitter.split_chr_has_sep _ _ S) as (x & y & l & ->).
    now destruct (Ascii.eqb c "/").
  - rewrite (rfind_split_no_slash _ S). cbn [nonempty].
    unfold basename. cbn [split_chr]. rewrite (split_chr_none _ _ S).
    now destruct (Ascii.eqb c "/").
Qed.

Lemma path_split_basename (p : string) : snd (path_split p) = basename p.
Proof.
  unfold path_split. rewrite <- rfind_split_basename.
  now destruct (rfind_split p).
Qed.

(** The pattern of the extension. *)
Lemma before_last_dot_none (s : string) :
  has_char "." s = false -> before_last_dot s = None.
Proof.
  induction s as [|c s IH]; [reflexivity|]. cbn [has_char before_last_dot].
  intros H. apply Bool.orb_false_iff in H as [Hc Hs].
  now rewrite (IH Hs), Hc.
Qed.

Lemma before_last_dot_found (stem x : string) :
  has_char "." x = false -> before_last_dot (stem ++ "." ++ x) = Some stem.
Proof.
  intros H. induction stem as [|c stem IH].
  - change ("" ++ "." ++ x) with (String "." x). cbn [before_last_dot].
    now rewrite (before_last_dot_none _ H).
  - change (String c stem ++ "." ++ x) with (String c (stem ++ "." ++ x)).
    cbn [before_last_dot]. now rewrite IH.
Qed.

Lemma destination_path_basename (filepath : string) (preserve_paths : bool)
    (strip_paths : Z) (outdir : string) (override_ext : option string) :
  basename (destination_path filepath preserve_paths strip_paths outdir
              override_ext)
  = basename
      match override_ext with
      | Some ext => if nonempty ext then sub_ext ext (basename filepath)
                    else basename filepath
      | None => basename filepath
      end.
Proof.
  unfold destination_path. rewrite <- (path_split_basename filepath).
  destruct (path_split filepath) as [dirname filename]. cbn [snd].
  cbv beta iota zeta. rewrite basename_path_join.
  destruct preserve_paths; [now rewrite basename_path_join | reflexivity].
Qed.

(** X15.  Whatever the directory of the source, the output directory and
    the options for paths, the file that [destination] names is the
    source's file name with its last extension replaced: [stem.x] becomes
    [stem] followed by the new extension. *)
Theorem destination_file_name (filepath : string) (preserve_paths : bool)
    (strip_paths : Z) (outdir : option string) (ext stem x d : string) :
  destination filepath preserve_paths strip_paths outdir (Some ext)
  = Returned d ->
  nonempty ext = true ->
  has_char "/" ext = false -> has_char "\" ext = false ->
  basename filepath = stem ++ "." ++ x -> has_char "." x = false ->
  basename d = stem ++ ext.
Proof.
  unfold destination. intros H He Hs _ Hb Hx.
  destruct outdir as [out|]; [|discriminate].
  destruct (nonempty out); [|discriminate].
  injection H as <-. rewrite destination_path_basename, He, Hb.
  unfold sub_ext. rewrite (before_last_dot_found _ _ Hx).
  apply basename_plain. rewrite Preprocessor.has_char_append, Hs.
  pose proof (basename_no_slash filepath) as Hn. rewrite Hb in Hn.
  rewrite Preprocessor.has_char_append in Hn.
  apply Bool.orb_false_iff in Hn as [Hn _]. now rewrite Hn.
Qed.

Lemma destination_file_name_witness :
  destination "lib/util/main.py" true 1 (Some "docs") (Some ".html")
  = Returned "docs/util/main.html"
  /\ basename "docs/util/main.html" = "main.html".
Proof.
  split; [reflexivity|].
  exact (destination_file_name "lib/util/main.py" true 1 (Some "docs")
           ".html" "main" "py" "docs/util/main.html"
           eq_refl eq_refl eq_refl eq_refl eq_refl eq_refl).
Defined.

(** *** The target of a link *)

Lemma get_destination_basename (preserve_paths : bool) (strip_paths : Z)
    (outdir source stem x : string) :
  basename source = stem ++ "." ++ x -> has_char "." x = false ->
  basename (get_destination preserve_paths strip_paths outdir source)
  = stem ++ ".html".
Proof.
  intros Hb Hx. unfold get_destination.
  rewrite destination_path_basename. cbn [nonempty]. rewrite Hb.
  unfold sub_ext. rewrite (before_last_dot_found _ _ Hx).
  apply basename_plain. rewrite Preprocessor.has_char_append.
  pose proof (basename_no_slash source) as Hn. rewrite Hb in Hn.
  rewrite Preprocessor.has_char_append in Hn.
  apply Bool.orb_false_iff in Hn as [Hn _]. now rewrite Hn.
Qed.

(** X16.  With the resolver that [process] hands to [preprocess], the link
    that replaces a reference to [dir/stem.x] points to [stem.html]: the
    directory of the reference, the output directory and the options for
    paths leave no trace in the link. *)
Theorem link_target_is_file_name (preserve_paths : bool) (strip_paths : Z)
    (outdir : string) :
  (forall g stem x,
      has_char "#" g = false ->
      basename g = stem ++ "." ++ x -> has_char "." x = false ->
      replace_crossref (get_destination preserve_paths strip_paths outdir) g
      = Ok (" [" ++ g ++ "](" ++ stem ++ ".html)"))
  /\ (forall name anchor stem x,
         has_char "#" name = false -> has_char "#" anchor = false ->
         basename name = stem ++ "." ++ x -> has_char "." x = false ->
         replace_crossref (get_destination preserve_paths strip_paths outdir)
           (name ++ "#" ++ anchor)
         = Ok (" [" ++ name ++ "](" ++ stem ++ ".html#" ++ anchor ++ ")")).
Proof.
  split.
  - intros g stem x Hg Hb Hx.
    rewrite (Preprocessor.replace_crossref_name _ _ Hg).
    rewrite (get_destination_basename _ _ _ _ _ _ Hb Hx).
    now rewrite !append_assoc.
  - intros name anchor stem x Hn Ha Hb Hx.
    rewrite (Preprocessor.replace_crossref_anchor _ _ _ Hn Ha).
    rewrite (get_destination_basename _ _ _ _ _ _ Hb Hx).
    now rewrite !append_assoc.
Qed.

Lemma link_target_is_file_name_witness :
  replace_crossref (get_destination true 0 "docs") "lib/util/main.py"
  = Ok " [lib/util/main.py](main.html)"
  /\ replace_crossref (get_destination true 0 "docs") "lib/main.py#parse"
     = Ok " [lib/main.py](main.html#parse)".
Proof.
  destruct (link_target_is_file_name true 0 "docs") as [H1 H2]. split.
  - exact (H1 "lib/util/main.py" "main" "py" eq_refl eq_refl eq_refl).
  - exact (H2 "lib/main.py" "parse" "main" "py"
              eq_refl eq_refl eq_refl eq_refl).
Defined.

(** *** The directory of the source *)

Lemma rfind_split_join (dir file : string) :
  has_char "/" file = false ->
  rfind_split (dir ++ "/" ++ file) = (dir ++ "/", file).
Proof.
  intros H. induction dir as [|c dir IH].
  - change ("" ++ "/" ++ file) with (String "/" file). cbn [rfind_split].
    now rewrite (rfind_split_no_slash _ H).
  - change (String c dir ++ "/" ++ file)
      with (String c (dir ++ "/" ++ file)).
    cbn [rfind_split]. rewrite IH.
    now rewrite (nonempty_append_r dir "/" eq_refl).
Qed.

Lemma rstrip_chr_slash (dir : string) :
  nonempty dir = true -> endswith "/" dir = false ->
  rstrip_chr "/" (dir ++ "/") = dir /\ all_slashes (dir ++ "/") = false.
Proof.
  induction dir as [|c dir IH]; [discriminate|]. intros _ He.
  cbn [endswith] in He. apply Bool.orb_false_iff in He as [He1 He2].
  destruct dir as [|d dir].
  - destruct (Ascii.eqb c "/") eqn:C.
    + apply Ascii.eqb_eq in C. subst c. discriminate He1.
    + cbn [append rstrip_chr all_slashes]. rewrite C. now split.
  - destruct (IH eq_refl He2) as [IH1 IH2].
    change (String c (String d dir) ++ "/")
      with (String c (String d dir ++ "/")).
    cbn [rstrip_chr all_slashes]. rewrite IH1, IH2.
    now rewrite Bool.andb_false_r.
Qed.

Lemma path_split_join (dir file : string) :
  has_char "/" file = false ->
  nonempty dir = true -> endswith "/" dir = false ->
  path_split (dir ++ "/" ++ file) = (dir, file).
Proof.
  intros Hf Hd He. unfold path_split. rewrite (rfind_split_join _ _ Hf).
  destruct (rstrip_chr_slash _ Hd He) as [-> ->].
  now rewrite (nonempty_append_r dir "/" eq_refl).
Qed.

Lemma concat_cons_cons (sep x y : string) (l : list string) :
  String.concat sep (x :: y :: l) = x ++ sep ++ String.concat sep (y :: l).
Proof. reflexivity. Qed.

(** Joining the pieces of a split gives the string back. *)
Lemma join_split_chr (c : ascii) (s : string) :
  join (String c "") (split_chr c s) = s.
Proof.
  unfold join. induction s as [|d s IH]; [reflexivity|]. cbn [split_chr].
  destruct (split_chr_cons c s) as (h & r & E). rewrite E in IH |- *.
  destruct (Ascii.eqb d c) eqn:D.
  - apply Ascii.eqb_eq in D. subst d. rewrite concat_cons_cons, IH.
    reflexivity.
  - destruct r as [|y r].
    + cbn [String.concat] in IH |- *. now rewrite IH.
    + rewrite concat_cons_cons in IH |- *.
      change (String d h ++ String c "" ++ String.concat (String c "") (y :: r))
        with (String d (h ++ String c "" ++ String.concat (String c "") (y :: r))).
      now rewrite IH.
Qed.

(** X17.  With [preserve_paths] and nothing stripped, the directory of the
    source is kept under the output directory: the source [dir/file] goes to
    [outdir] joined with [dir/name], [name] being the file name with its
    new extension. *)
Theorem destination_keeps_directory (dir file outdir : string)
    (override_ext : option string) :
  has_char "/" file = false ->
  nonempty dir = true -> endswith "/" dir = false ->
  (forall ext, override_ext = Some ext ->
               has_char "/" ext = false /\ has_char "\" ext = false) ->
  destination_path (dir ++ "/" ++ file) true 0 outdir override_ext
  = path_join outdir
      (dir ++ "/"
       ++ match override_ext with
          | Some ext => if nonempty ext then sub_ext ext file else file
          | None => file
          end).
Proof.
  intros Hf Hd He Hx. unfold destination_path.
  rewrite (path_split_join _ _ Hf Hd He).
  change (slice_from 0 (split_chr "/" dir)) with (split_chr "/" dir).
  rewrite (join_split_chr "/" dir). f_equal.
  set (name := match override_ext with
               | Some ext => if nonempty ext then sub_ext ext file else file
               | None => file
               end).
  assert (Hn : has_char "/" name = false).
  { unfold name. destruct override_ext as [ext|]; [|exact Hf].
    destruct (nonempty ext); [|exact Hf].
    destruct (Hx ext eq_refl) as [Hs _]. unfold sub_ext.
    destruct (before_last_dot file) as [b|] eqn:B; [|exact Hf].
    rewrite Preprocessor.has_char_append, Hs, Bool.orb_false_r.
    clear - Hf B. revert b B.
    induction file as [|c file IH]; intros b; [discriminate|].
    cbn [has_char] in Hf. apply Bool.orb_false_iff in Hf as [Hc Hf].
    cbn [before_last_dot].
    destruct (before_last_dot file) as [b'|].
    - intros [= <-]. cbn [has_char]. now rewrite Hc, (IH Hf b' eq_refl).
    - destruct (Ascii.eqb c "."); [now intros [= <-]|discriminate]. }
  unfold path_join. rewrite Hd, He.
  unfold startswith. rewrite (Preprocessor.has_char_prefix _ _ Hn).
  reflexivity.
Qed.

Lemma destination_keeps_directory_witness :
  destination_path "lib/util/main.py" true 0 "docs" (Some ".html")
  = "docs/lib/util/main.html".
Proof.
  exact (destination_keeps_directory "lib/util" "main.py" "docs"
           (Some ".html") eq_refl eq_refl eq_refl
           ltac:(intros ext [= <-]; split; reflexivity)).
Defined.

End Destinations.

(** ** The braces of the template language *)

Module Braces.
Import PyStr Pycco Notions Samples PyStrFacts.

Lemma replace_from_skip (old new x rest : string) :
  replace_from (String.length x) old new (x ++ rest)
  = replace_from 0 old new rest.
Proof. induction x as [|c x IH]; [now destruct rest | exact IH]. Qed.

Lemma replace_from_hit (c : ascii) (old new rest : string) :
  replace_from 0 (String c old) new (String c old ++ rest)
  = new ++ replace_from 0 (String c old) new rest.
Proof.
  change (String c old ++ rest) with (String c (old ++ rest)).
  cbn [replace_from].
  change (String c (old ++ rest)) with (String c old ++ rest).
  rewrite prefix_append.
  replace (String.length (String c old) - 1) with (String.length old)
    by (simpl; lia).
  now rewrite replace_from_skip.
Qed.

Lemma replace_from_miss (old new : string) (c : ascii) (t : string) :
  prefix old (String c t) = false ->
  replace_from 0 old new (String c t) = String c (replace_from 0 old new t).
Proof. intros H. cbn [replace_from]. now rewrite H. Qed.

(** The scan of [escape_stache] at any text. *)
Lemma escape_scan (s : string) :
  (s = "" /\ escape_stache s = "")
  \/ (exists rest, s = "{{" ++ rest
                   /\ escape_stache s = stache_marker ++ escape_stache rest)
  \/ (exists c t, s = String c t /\ prefix "{{" s = false
                  /\ escape_stache s = String c (escape_stache t)).
Proof.
  destruct s as [|c t]; [now left|]. right.
  destruct (prefix "{{" (String c t)) eqn:E.
  - left. destruct (prefix_split _ _ E) as [rest ->].
    exists rest. split; [reflexivity|]. apply replace_from_hit.
  - right. exists c, t. split; [reflexivity|]. split; [reflexivity|].
    now apply replace_from_miss.
Qed.

Lemma contains_other (c : ascii) (x : string) :
  Ascii.eqb c "{" = false -> contains "{{" (String c x) = contains "{{" x.
Proof.
  intros H. cbn [contains]. rewrite prefix_cons.
  destruct (ascii_dec "{" c) as [<-|]; [discriminate H | reflexivity].
Qed.

Lemma contains_marker (x : string) :
  contains "{{" (stache_marker ++ x) = contains "{{" x.
Proof.
  unfold stache_marker. cbn [append].
  now rewrite !contains_other by reflexivity.
Qed.

Lemma escape_brace (s : string) :
  prefix "{" s = false -> prefix "{" (escape_stache s) = false.
Proof.
  intros H.
  destruct (escape_scan s) as [[-> ->]|[(rest & -> & _)|(c & t & -> & _ & ->)]].
  - reflexivity.
  - discriminate H.
  - rewrite prefix_cons in H |- *. destruct (ascii_dec "{" c); [|reflexivity].
    now rewrite prefix_nil_l in H.
Qed.

Lemma escape_no_braces_bounded (n : nat) (s : string) :
  String.length s <= n -> contains "{{" (escape_stache s) = false.
Proof.
  revert s; induction n as [|n IH]; intros s Hn.
  - destruct s; [reflexivity | simpl in Hn; lia].
  - destruct (escape_scan s)
      as [[-> ->]|[(rest & -> & ->)|(c & t & -> & Hp & ->)]].
    + reflexivity.
    + rewrite contains_marker. apply IH. simpl in Hn. lia.
    + cbn [contains]. rewrite (IH t) by (simpl in Hn; lia).
      rewrite Bool.orb_false_r. rewrite prefix_cons in Hp |- *.
      destruct (ascii_dec "{" c); [|reflexivity].
      now apply escape_brace.
Qed.

(** X18.  After the loop of [generate_html] no html of a merged section
    has two opening braces in a row, so the template engine finds no tag
    in it; the numbers of the sections are as before. *)
Theorem escaped_sections_have_no_tag (secs : list merged_section) :
  map m_num (escape_sections secs) = map m_num secs
  /\ forall m,
      In m (escape_sections secs) ->
      contains "{{" (source_html m) = false
      /\ contains "{{" (translation_html m) = false.
Proof.
  split.
  - unfold escape_sections. rewrite map_map. reflexivity.
  - intros m Hm. unfold escape_sections in Hm.
    apply in_map_iff in Hm as (m0 & <- & _). cbn [source_html translation_html].
    split; eapply escape_no_braces_bounded; apply Nat.le_refl.
Qed.

Lemma unescape_escape_bounded (n : nat) (s : string) :
  String.length s <= n -> has_char "_" s = false ->
  unescape_stache (escape_stache s) = s.
Proof.
  revert s; induction n as [|n IH]; intros s Hn Hs.
  - destruct s; [reflexivity | simpl in Hn; lia].
  - destruct (escape_scan s)
      as [[-> ->]|[(rest & -> & ->)|(c & t & -> & Hp & ->)]].
    + reflexivity.
    + unfold unescape_stache, stache_marker at 1 2.
      rewrite replace_from_hit. fold stache_marker.
      fold (unescape_stache (escape_stache rest)).
      rewrite IH; [reflexivity|simpl in Hn; lia|].
      cbn [append has_char] in Hs. exact Hs.
    + cbn [has_char] in Hs. apply Bool.orb_false_iff in Hs as [Hc Hs].
      unfold unescape_stache. rewrite replace_from_miss.
      * fold (unescape_stache (escape_stache t)).
        rewrite IH; [reflexivity|simpl in Hn; lia|exact Hs].
      * unfold stache_marker. rewrite prefix_cons.
        destruct (ascii_dec "_" c) as [<-|]; [discriminate Hc | reflexivity].
Qed.

(** X19.  Putting the braces back undoes the escape for every html
    without an underscore: the text comes back as it was. *)
Theorem unescape_undoes_escape (h : string) :
  has_char "_" h = false -> unescape_stache (escape_stache h) = h.
Proof. apply (unescape_escape_bounded (String.length h)). apply Nat.le_refl. Qed.

Lemma unescape_undoes_escape_witness :
  unescape_stache (escape_stache "<p>{{x}} and {{{y}}}</p>")
  = "<p>{{x}} and {{{y}}}</p>".
Proof.
  exact (unescape_undoes_escape "<p>{{x}} and {{{y}}}</p>" eq_refl).
Defined.

(** The hypothesis is needed: an html that ends the marker's beginning
    with braces does not come back. *)
Example unescape_not_always_inverse :
  unescape_stache (escape_stache "__DOUBLE_OPEN_STACHE{{")
  = "{{DOUBLE_OPEN_STACHE__".
Proof. reflexivity. Qed.

Lemma escaped_sections_have_no_tag_witness :
  escape_sections
    [{| m_num := 0; source_html := "<p>{{{x}}</p>"; translation_html := "" |}]
  = [{| m_num := 0; source_html := "<p>__DOUBLE_OPEN_STACHE__{x}}</p>";
        translation_html := "" |}]
  /\ contains "{{" "<p>__DOUBLE_OPEN_STACHE__{x}}</p>" = false.
Proof.
  split; [reflexivity|].
  exact (proj1 (proj2 (escaped_sections_have_no_tag
           [{| m_num := 0; source_html := "<p>{{{x}}</p>";
               translation_html := "" |}]) _ (or_introl eq_refl))).
Defined.

End Braces.

(** ** Shifting items off a list *)

Module Shifting.
Import PyStr Pycco Notions.

(** X20.  Calling [shift] again and again on what it leaves returns the
    items of the list in order and then the default for ever: [n] calls
    return the first [n] items, filled up with the default. *)
Theorem shift_until_empty {A : Type} (n : nat) (l : list A) (default : A) :
  shift_n n l default
  = (firstn n l ++ repeat default (n - List.length l))%list.
Proof.
  revert l; induction n as [|n IH]; intros l; [reflexivity|].
  cbn [shift_n]. destruct l as [|x l]; cbn [shift fst snd].
  - rewrite IH. cbn. now destruct n.
  - rewrite IH. reflexivity.
Qed.

End Shifting.

(** ** The heading rule on the sections of a document *)

Module HeadingRule.
Import PyStr Pycco Notions Samples PyStrFacts.

Lemma rstrip_keeps_head (c : ascii) (t : string) :
  isspace c = false -> exists r, rstrip (String c t) = String c r.
Proof.
  intros H. cbn [rstrip]. destruct (rstrip t) as [|d r]; [rewrite H|];
    eauto.
Qed.

(** Under the markdown renderer, a delimiter line that begins with ["="]
    closes itself: it ends with the fence and is longer than it. *)
Lemma heading_fence_line_closes_itself (st : pstate) (line : string) :
  prefix "=" line = true -> touches "```" line = true ->
  multi_line (delimiter_step default_renderer "```" "```" st line) = false.
Proof.
  intros Hp Ht. unfold delimiter_step. cbn [multi_line].
  destruct (multi_line st); [reflexivity|]. cbn [negb andb].
  destruct line as [|c t]; [discriminate|].
  rewrite prefix_cons in Hp.
  destruct (ascii_dec "=" c) as [<-|]; [|discriminate]. clear Hp.
  destruct (rstrip_keeps_head "=" t eq_refl) as [r Hr].
  unfold touches, startswith in Ht. cbn [lstrip] in Ht.
  change (isspace "=") with false in Ht. cbv iota in Ht.
  rewrite prefix_cons in Ht.
  destruct (ascii_dec "`" "=") as [E|_]; [discriminate E|].
  cbn [orb] in Ht. rewrite Hr in Ht.
  unfold strip. rewrite Hr. cbn [lstrip].
  change (isspace "=") with false. cbv iota. rewrite Ht.
  destruct (Destinations.endswith_split _ _ Ht) as [q Hq].
  destruct q as [|x q]; [discriminate Hq|].
  rewrite Hq. cbn [append String.length]. rewrite length_append.
  cbn [String.length]. cbn [andb].
  destruct (Nat.ltb_spec 3 (S (String.length q + 3))) as [_|H];
    [reflexivity|lia].
Qed.

Lemma prefix_eq_append (c x : string) :
  nonempty c = true -> prefix "=" (c ++ x) = prefix "=" c.
Proof.
  destruct c as [|a c]; [discriminate|]. intros _.
  change (String a c ++ x) with (String a (c ++ x)).
  rewrite !prefix_cons. destruct (ascii_dec "=" a); [|reflexivity].
  now rewrite !prefix_nil_l.
Qed.

Lemma no_heading_grows (c line : string) :
  prefix "=" c = false -> prefix "=" (c ++ nl ++ line) = false.
Proof.
  intros H. destruct c as [|a c]; [reflexivity|].
  now rewrite prefix_eq_append.
Qed.

Lemma no_heading_saved (secs : list section) (c : string) :
  Forall (fun s => prefix "=" (text s) = false) secs ->
  prefix "=" c = false ->
  Forall (fun s => prefix "=" (text s) = false) (save secs c).
Proof.
  intros Hs Hc. unfold save. destruct (nonempty c); [|exact Hs].
  apply Forall_app. split; [exact Hs|]. now repeat constructor.
Qed.

Lemma parse_line_no_heading (st : pstate) (line : string) :
  no_heading_kept st -> no_heading_kept (parse_line default_renderer st line).
Proof.
  intros [He Hc].
  assert (Hplain : no_heading_kept (plain_step st line)).
  { unfold plain_step, no_heading_kept.
    destruct (multi_line st); [|destruct (nonempty line)];
      cbn [emitted chunk].
    - split; [exact He | now apply no_heading_grows].
    - split; [exact He | now apply no_heading_grows].
    - split; [now apply no_heading_saved | reflexivity]. }
  unfold parse_line.
  change (block_delimiters default_renderer) with (Some ("```", "```")).
  cbv iota beta.
  destruct (touches "```" line || touches "```" line) eqn:Ht;
    [|exact Hplain].
  rewrite Bool.orb_diag in Ht.
  destruct (multi_line (delimiter_step default_renderer "```" "```" st line))
    eqn:M.
  - rewrite (Splitter.delimiter_step_on _ _ _ _ _ M).
    split; cbn [emitted chunk]; [now apply no_heading_saved|].
    change (strip_delimiters default_renderer "```" "```" line) with line.
    destruct (prefix "=" line) eqn:P; [|reflexivity].
    rewrite (heading_fence_line_closes_itself st line P Ht) in M.
    discriminate M.
  - rewrite (Splitter.delimiter_step_off _ _ _ _ _ M).
    split; cbn [emitted chunk]; [|reflexivity].
    apply Forall_app. split; [exact He|]. constructor; [|constructor].
    cbn [text new_section]. now apply no_heading_grows.
Qed.

Lemma parse_lines_no_heading (lines : list string) (st : pstate) :
  no_heading_kept st -> no_heading_kept (parse_lines default_renderer st lines).
Proof.
  revert st; induction lines as [|l lines IH]; intros st H; [exact H|].
  rewrite Sectioning.parse_lines_cons. apply IH.
  now apply parse_line_no_heading.
Qed.

(** X21.  Under the markdown renderer no section that [parse] returns
    begins with ["="]: a line that begins with ["="] enters the buffer
    behind a newline, or, when it touches the fence, closes itself and is
    saved behind a newline too.  So the heading rule of [preprocess] never
    applies to a section of a parsed document: [preprocess] is the
    cross-reference rule alone. *)
Theorem heading_rule_never_applies (txt ttl : string) (secs : list section) :
  split_text default_renderer txt = Ok (ttl, secs) ->
  forall s,
    In s secs ->
    prefix "=" (text s) = false
    /\ forall destination section_nr,
        preprocess destination (text s) section_nr
        = sub_crossref destination (text s).
Proof.
  unfold split_text.
  destruct (drop_shebang (split_chr nl_char txt)) as [|t body];
    [discriminate|].
  intros [= <- <-] s Hs.
  destruct (parse_lines_no_heading body init_state) as [He Hc].
  { split; [constructor | reflexivity]. }
  pose proof (no_heading_saved _ _ He Hc) as H.
  rewrite Forall_forall in H. specialize (H s Hs).
  split; [exact H|]. intros destination n. unfold preprocess.
  now rewrite Preprocessor.sub_section_name_other.
Qed.

Lemma heading_rule_never_applies_witness :
  split_text default_renderer
    ("Title" ++ nl ++ "=== Setup ===" ++ nl ++ nl ++ "== Use ```")
  = Ok ("Title", [new_section (nl ++ "=== Setup ===");
                  new_section (nl ++ "== Use ```")])
  /\ preprocess html_destination (nl ++ "== Use ```") 0
     = sub_crossref html_destination (nl ++ "== Use ```").
Proof.
  split; [reflexivity|].
  exact (proj2 (heading_rule_never_applies
                  ("Title" ++ nl ++ "=== Setup ===" ++ nl ++ nl
                   ++ "== Use ```")
                  "Title"
                  [new_section (nl ++ "=== Setup ===");
                   new_section (nl ++ "== Use ```")]
                  eq_refl (new_section (nl ++ "== Use ```"))
                  (or_intror (or_introl eq_refl)))
           html_destination 0).
Defined.

End HeadingRule.
